(** * qBraid Chat extension: a shallow embedding of [extension.js]

    The extension is glue between three parties: the editor host (commands,
    panels, configuration), the remote chat service (two REST endpoints
    reached through axios) and the script running inside the webview.  The
    host side is embedded in a state-and-exception monad over a [World]
    record; the webview script is embedded as pure functions over a [View]
    record.  Both sides exchange JavaScript objects, embedded as [JSValue].
    The repository holds the file twice; the two copies differ in the style
    sheet and the markup of the page only, the handlers and the script are
    the same. *)

From Stdlib Require Import ZArith NArith String Ascii List Bool Lia.
From stdpp Require Import base option list countable gmap.
Import ListNotations.

Local Open Scope N_scope.

(** ** JavaScript strings

    A JavaScript string is a sequence of UTF-16 code units; [length] counts
    code units.  String literals of the source are ASCII and are written
    with [js]. *)

Definition jsstring : Type := list N.

Definition js (s : string) : jsstring :=
  List.map N_of_ascii (list_ascii_of_string s).
Arguments js : simpl never.

(** [WhiteSpace] and [LineTerminator] code points of ECMAScript, the ones
    [String.prototype.trim] strips. *)
Definition is_js_space (c : N) : bool :=
  (c =? 0x09) || (c =? 0x0A) || (c =? 0x0B) || (c =? 0x0C) || (c =? 0x0D)
  || (c =? 0x20) || (c =? 0xA0) || (c =? 0x1680)
  || ((0x2000 <=? c) && (c <=? 0x200A))
  || (c =? 0x2028) || (c =? 0x2029) || (c =? 0x202F) || (c =? 0x205F)
  || (c =? 0x3000) || (c =? 0xFEFF).

Fixpoint trimStart (s : jsstring) : jsstring :=
  match s with
  | c :: r => if is_js_space c then trimStart r else s
  | [] => []
  end.

Definition trimEnd (s : jsstring) : jsstring := rev (trimStart (rev s)).

(** [s.trim()] *)
Definition trim (s : jsstring) : jsstring := trimEnd (trimStart s).
Arguments trim : simpl never.

(** ** JavaScript values

    The values that cross the two message channels and the HTTP boundary are
    JSON-like.  Numbers are never computed with by the extension, only
    tested for truthiness, so integer-valued numbers are enough. *)

#[warnings="-register-all"] Inductive JSValue : Type :=
  | JUndefined
  | JNull
  | JBool (b : bool)
  | JNumber (n : Z)
  | JString (s : jsstring)
  | JArray (elems : list JSValue)
  | JObject (fields : list (jsstring * JSValue)).

Definition jsstring_eqb (a b : jsstring) : bool := bool_decide (a = b).

(** ToBoolean: what [!v], [v || w] and [if (v)] test. *)
Definition truthy (v : JSValue) : bool :=
  match v with
  | JUndefined | JNull => false
  | JBool b => b
  | JNumber n => negb (n =? 0)%Z
  | JString s => match s with [] => false | _ => true end
  | JArray _ | JObject _ => true
  end.

(** [a || b] *)
Definition js_or (a b : JSValue) : JSValue := if truthy a then a else b.

Fixpoint lookup_field (name : jsstring) (fields : list (jsstring * JSValue))
  : JSValue :=
  match fields with
  | [] => JUndefined
  | (k, v) :: rest => if jsstring_eqb k name then v else lookup_field name rest
  end.

(** [v.name] for a property name that is not a built-in of strings, arrays,
    numbers or booleans (the source reads [command], [apiKey], [prompt],
    [model], [models], [content], [message], [data]).  Reading a property of
    [undefined] or [null] raises a TypeError: [None]. *)
Definition get_field (v : JSValue) (name : jsstring) : option JSValue :=
  match v with
  | JUndefined | JNull => None
  | JObject fields => Some (lookup_field name fields)
  | _ => Some JUndefined
  end.

(** [arr.map(f)] where [f] may throw: the callback runs on the elements in
    order and the first exception aborts the whole call. *)
Fixpoint map_elems (f : JSValue -> option JSValue) (elems : list JSValue)
  : option (list JSValue) :=
  match elems with
  | [] => Some []
  | x :: rest =>
      match f x with
      | None => None
      | Some y =>
          match map_elems f rest with
          | None => None
          | Some ys => Some (y :: ys)
          end
      end
  end.

(** [v.map(f)] on a JSON value: only arrays have a [map] method, on anything
    else the call raises a TypeError. *)
Definition array_map (f : JSValue -> option JSValue) (v : JSValue)
  : option (list JSValue) :=
  match v with
  | JArray elems => map_elems f elems
  | _ => None
  end.

(** ** HTTP through axios *)

Inductive Method : Type := GET | POST.

Record HttpRequest : Type := mkRequest {
  req_method : Method;
  req_url : jsstring;
  req_body : JSValue;                       (* [JUndefined] for a GET *)
  req_headers : list (jsstring * JSValue)
}.

Record HttpResponse : Type := mkResponse {
  status : Z;
  data : JSValue
}.

(** What the remote service does with a request: it answers, or no answer
    arrives at all (DNS failure, refused connection, timeout). *)
Inductive HttpOutcome : Type :=
  | Responds (r : HttpResponse)
  | NoResponse.

(** The exceptions that can reach the two [catch] blocks.  Only an
    [AxiosError] raised for an answered request has a [response]. *)
Inductive JSError : Type :=
  | AxiosError (response : option HttpResponse)
  | TypeError
  | ConfigError.

(** [error.response?.data] *)
Definition error_response_data (error : JSError) : JSValue :=
  match error with
  | AxiosError (Some r) => data r
  | _ => JUndefined
  end.

(** axios' default [validateStatus]: the promise resolves for 2xx only. *)
Definition validateStatus (st : Z) : bool := ((200 <=? st) && (st <? 300))%Z.

(** ** The host world *)

Definition Panel : Type := nat.

(** Everything outside the extension that answers it: the remote service,
    which may depend on all requests made so far (the last one is the one
    being answered), and the settings store, which may refuse a write (the
    promise of [update] rejects, for instance for an unregistered key). *)
Record Environment : Type := mkEnv {
  network : list HttpRequest -> HttpOutcome;
  settings_accept : jsstring -> JSValue -> bool
}.

Record World : Type := mkWorld {
  currentPanel : option Panel;              (* the module variable *)
  openPanels : list Panel;                  (* panels the host shows *)
  nextPanel : Panel;                        (* host's supply of panels *)
  reveals : list Panel;                     (* calls of [reveal] *)
  config : gmap jsstring JSValue;           (* the settings store *)
  configWrites : list (jsstring * JSValue); (* calls of [update] *)
  posted : list (Panel * JSValue);          (* host -> webview messages *)
  requests : list HttpRequest               (* HTTP requests issued *)
}.

(** The world when the extension is activated; the settings store outlives
    the editor session, so it starts with whatever it held before. *)
Definition start (settings : gmap jsstring JSValue) : World :=
  {| currentPanel := None; openPanels := []; nextPanel := 0%nat;
     reveals := []; config := settings; configWrites := []; posted := [];
     requests := [] |}.

(** ** Statements: state plus exceptions *)

Inductive Completion (A : Type) : Type :=
  | Normal (a : A)
  | Thrown (e : JSError).
Arguments Normal {A} a.
Arguments Thrown {A} e.

Definition M (A : Type) : Type := World -> Completion A * World.

#[global] Instance M_ret : MRet M := fun A a w => (Normal a, w).

#[global] Instance M_bind : MBind M := fun A B f m w =>
  match m w with
  | (Normal a, w') => f a w'
  | (Thrown e, w') => (Thrown e, w')
  end.

Definition throw {A} (e : JSError) : M A := fun w => (Thrown e, w).

(** [try { body } catch (error) { handler }]: the effects of [body] up to
    the exception stay. *)
Definition try_catch {A} (body : M A) (handler : JSError -> M A) : M A :=
  fun w =>
    match body w with
    | (Normal a, w') => (Normal a, w')
    | (Thrown e, w') => handler e w'
    end.

(** Lifting a property read or a [map] call that may raise a TypeError. *)
Definition or_type_error {A} (o : option A) : M A :=
  match o with
  | Some a => mret a
  | None => throw TypeError
  end.

(** The final world of a statement. *)
Definition exec {A} (m : M A) (w : World) : World := snd (m w).

(** ** The host API, as far as the extension calls it *)

Definition get_currentPanel : M (option Panel) :=
  fun w => (Normal (currentPanel w), w).

Definition set_currentPanel (v : option Panel) : M unit := fun w =>
  (Normal tt,
   {| currentPanel := v; openPanels := openPanels w;
      nextPanel := nextPanel w; reveals := reveals w; config := config w;
      configWrites := configWrites w; posted := posted w;
      requests := requests w |}).

(** [vscode.window.createWebviewPanel(...)]: the host opens a panel it has
    never handed out before. *)
Definition window_createWebviewPanel : M Panel := fun w =>
  let p := nextPanel w in
  (Normal p,
   {| currentPanel := currentPanel w; openPanels := p :: openPanels w;
      nextPanel := S p; reveals := reveals w; config := config w;
      configWrites := configWrites w; posted := posted w;
      requests := requests w |}).

(** [panel.reveal(vscode.ViewColumn.One)] *)
Definition reveal (p : Panel) : M unit := fun w =>
  (Normal tt,
   {| currentPanel := currentPanel w; openPanels := openPanels w;
      nextPanel := nextPanel w; reveals := reveals w ++ [p];
      config := config w; configWrites := configWrites w;
      posted := posted w; requests := requests w |}).

(** [panel.webview.postMessage(msg)]: the host queues [msg] for the webview
    of the panel; on an [undefined] panel the property read raises a
    TypeError. *)
Definition postMessage (panel : option Panel) (msg : JSValue) : M unit :=
  fun w =>
    match panel with
    | None => (Thrown TypeError, w)
    | Some p =>
        (Normal tt,
         {| currentPanel := currentPanel w; openPanels := openPanels w;
            nextPanel := nextPanel w; reveals := reveals w;
            config := config w; configWrites := configWrites w;
            posted := posted w ++ [(p, msg)]; requests := requests w |})
    end.

(** [vscode.workspace.getConfiguration().get(key)] *)
Definition configuration_get (key : jsstring) : M JSValue := fun w =>
  (Normal (default JUndefined (config w !! key)), w).

Section Host.
Context (env : Environment).

(** [await vscode.workspace.getConfiguration().update(key, value, true)] *)
Definition configuration_update (key : jsstring) (value : JSValue)
  : M unit := fun w =>
  let calls := configWrites w ++ [(key, value)] in
  if settings_accept env key value then
    (Normal tt,
     {| currentPanel := currentPanel w; openPanels := openPanels w;
        nextPanel := nextPanel w; reveals := reveals w;
        config := <[key := value]> (config w); configWrites := calls;
        posted := posted w; requests := requests w |})
  else
    (Thrown ConfigError,
     {| currentPanel := currentPanel w; openPanels := openPanels w;
        nextPanel := nextPanel w; reveals := reveals w;
        config := config w; configWrites := calls;
        posted := posted w; requests := requests w |}).

(** [await axios(...)]: the request goes out, and the promise resolves
    with the response or rejects with an [AxiosError]. *)
Definition axios_request (r : HttpRequest) : M HttpResponse := fun w =>
  let sent := requests w ++ [r] in
  let w' :=
    {| currentPanel := currentPanel w; openPanels := openPanels w;
       nextPanel := nextPanel w; reveals := reveals w;
       config := config w; configWrites := configWrites w;
       posted := posted w; requests := sent |} in
  match network env sent with
  | Responds resp =>
      if validateStatus (status resp) then (Normal resp, w')
      else (Thrown (AxiosError (Some resp)), w')
  | NoResponse => (Thrown (AxiosError None), w')
  end.

Definition axios_get (url : jsstring) (headers : list (jsstring * JSValue))
  : M HttpResponse :=
  axios_request (mkRequest GET url JUndefined headers).

Definition axios_post (url : jsstring) (body : JSValue)
    (headers : list (jsstring * JSValue)) : M HttpResponse :=
  axios_request (mkRequest POST url body headers).

(** ** The extension: [extension.js], host side *)

Definition models_url : jsstring := js "https://api.qbraid.com/api/chat/models".
Definition chat_url : jsstring := js "https://api.qbraid.com/api/chat".
Definition apiKey_setting : jsstring := js "qbraidChat.apiKey".

(** [v === 'lit'] *)
Definition is_literal (v : JSValue) (lit : string) : bool :=
  match v with
  | JString s => jsstring_eqb s (js lit)
  | _ => false
  end.

Definition is_panel (panel : option Panel) : bool :=
  match panel with Some _ => true | None => false end.

Definition apiKeyValidated_message (models : list JSValue) : JSValue :=
  JObject [(js "command", JString (js "apiKeyValidated"));
           (js "models", JArray models)].

Definition error_message (message : JSValue) : JSValue :=
  JObject [(js "command", JString (js "error")); (js "message", message)].

Definition chatResponse_message (content : JSValue) : JSValue :=
  JObject [(js "command", JString (js "chatResponse"));
           (js "content", content)].

Definition handleApiKeyValidation (apiKey : JSValue) (panel : option Panel)
  : M unit :=
  if negb (is_panel panel) then mret tt else
  try_catch
    (response ← axios_get models_url [(js "api-key", apiKey)];
     if (status response =? 200)%Z then
       models ← or_type_error
         (array_map (fun model => get_field model (js "model"))
                    (data response));
       postMessage panel (apiKeyValidated_message models);;
       configuration_update apiKey_setting apiKey
     else mret tt)
    (fun error =>
       if is_panel panel then
         postMessage panel
           (error_message
              (js_or (error_response_data error)
                     (JString (js "Failed to validate API key"))))
       else mret tt).

Definition handleChatRequest (prompt : JSValue) (panel : option Panel)
  : M unit :=
  if negb (is_panel panel) then mret tt else
  try_catch
    (apiKey ← configuration_get apiKey_setting;
     if negb (truthy apiKey) then
       postMessage panel
         (error_message
            (JString (js "API key not found. Please enter your API key.")))
     else
       response ← axios_post chat_url
         (JObject [(js "prompt", prompt)])
         [(js "api-key", apiKey);
          (js "Content-Type", JString (js "application/json"))];
       if (status response =? 200)%Z && is_panel panel then
         content ← or_type_error (get_field (data response) (js "content"));
         postMessage panel (chatResponse_message content)
       else mret tt)
    (fun error =>
       if is_panel panel then
         postMessage panel
           (error_message
              (js_or (error_response_data error)
                     (JString (js "Failed to get chat response"))))
       else mret tt).

(** The listener [createWebviewPanel] registers with
    [webview.onDidReceiveMessage]. *)
Definition onDidReceiveMessage (message : JSValue) : M unit :=
  cp ← get_currentPanel;
  if negb (is_panel cp) then mret tt else
  command ← or_type_error (get_field message (js "command"));
  if is_literal command "validateApiKey" then
    apiKey ← or_type_error (get_field message (js "apiKey"));
    panel ← get_currentPanel;
    handleApiKeyValidation apiKey panel
  else if is_literal command "sendChat" then
    prompt ← or_type_error (get_field message (js "prompt"));
    panel ← get_currentPanel;
    handleChatRequest prompt panel
  else mret tt.

(** The listener [createWebviewPanel] registers with [onDidDispose]. *)
Definition onDidDispose : M unit := set_currentPanel None.

(** [createWebviewPanel(context)].  Every panel of the extension is made
    here, so every open panel carries the two listeners above.  The
    markup assigned to [webview.html] holds the script embedded further
    down as [View]; [getWebviewContent] only builds a string, so the
    [catch] around the assignment is never entered. *)
Definition createWebviewPanel : M unit :=
  p ← window_createWebviewPanel;
  set_currentPanel (Some p).

(** The command [qbraid-chat.openChat] registered by [activate]. *)
Definition openChat : M unit :=
  cp ← get_currentPanel;
  match cp with
  | Some p => reveal p
  | None => createWebviewPanel
  end.

(** The host closes panel [p] (the user closed the tab, or
    [panel.dispose()] was called): the panel goes away and its
    [onDidDispose] listener runs, once. *)
Definition panel_dispose (p : Panel) : M unit := fun w =>
  if bool_decide (p ∈ openPanels w) then
    onDidDispose
      {| currentPanel := currentPanel w;
         openPanels := filter (fun q => q ≠ p) (openPanels w);
         nextPanel := nextPanel w; reveals := reveals w;
         config := config w; configWrites := configWrites w;
         posted := posted w; requests := requests w |}
  else (Normal tt, w).

(** [deactivate()] *)
Definition deactivate : M unit :=
  cp ← get_currentPanel;
  match cp with
  | Some p => panel_dispose p
  | None => mret tt
  end.

(** ** The event loop

    The host calls into the extension one event at a time.  Each handler
    is run to completion, as if the answer to its request arrived at once:
    after its single [await] a handler reads only its own local variables,
    so what it posts and writes does not depend on the events that arrive
    while the request is in flight.  What the host does with a message
    posted to a panel that was closed in the meantime is not modelled.  An
    exception that escapes a listener is reported by the host and the
    extension goes on. *)

Inductive Event : Type :=
  | OpenChat
  | PanelClosed (p : Panel)
  | WebviewMessage (p : Panel) (message : JSValue)
  | Deactivate.

Definition handle (e : Event) : M unit :=
  match e with
  | OpenChat => openChat
  | PanelClosed p => panel_dispose p
  | WebviewMessage p message => fun w =>
      if bool_decide (p ∈ openPanels w) then onDidReceiveMessage message w
      else (Normal tt, w)
  | Deactivate => deactivate
  end.

Definition step (e : Event) (w : World) : World := exec (handle e) w.

Fixpoint run (events : list Event) (w : World) : World :=
  match events with
  | [] => w
  | e :: rest => run rest (step e w)
  end.

End Host.

(** ** The webview script: [getWebviewContent], the [<script>] element

    The page is embedded as the parts of the document the script reads or
    writes; styling and layout are left out. *)

Module View.

(** A child of [#chatDisplay]: a message [div] with its class name and
    the two operands of the concatenation that makes its text, or an
    error [div] with its text. *)
Inductive Child : Type :=
  | MessageDiv (className prefix : jsstring) (message : JSValue)
  | ErrorDiv (text : JSValue).

Record View : Type := mkView {
  apiKeyStatus_textContent : jsstring;
  apiKeyStatus_className : jsstring;
  apiKeySection_display : jsstring;
  chatSection_display : jsstring;
  modelSelect_options : list JSValue;
  modelSelect_selectedIndex : nat;    (* the user's choice of model *)
  promptInput_value : jsstring;
  chatDisplay : list Child;
  sent : list JSValue                 (* calls of [vscode.postMessage] *)
}.

(** The page as loaded under the style sheet of the first copy of the
    file, which hides [#chatSection]; the style sheet of the second copy
    has no such rule, so no property below rests on the display the page
    starts with. *)
Definition loaded : View :=
  {| apiKeyStatus_textContent := []; apiKeyStatus_className := [];
     apiKeySection_display := js "block"; chatSection_display := js "none";
     modelSelect_options := []; modelSelect_selectedIndex := 0%nat;
     promptInput_value := []; chatDisplay := []; sent := [] |}.

(** [/^[a-z0-9]+$/.test(s)], read off the pattern: one character of the
    class, then any number of them up to the end of the input. *)
Definition in_class (c : N) : bool :=
  ((0x61 <=? c) && (c <=? 0x7A)) || ((0x30 <=? c) && (c <=? 0x39)).

Fixpoint class_star_end (s : jsstring) : bool :=
  match s with
  | [] => true
  | c :: r => in_class c && class_star_end r
  end.

Definition regex_test (s : jsstring) : bool :=
  match s with
  | [] => false
  | c :: r => in_class c && class_star_end r
  end.

Definition validateApiKey_message (key : jsstring) : JSValue :=
  JObject [(js "command", JString (js "validateApiKey"));
           (js "apiKey", JString key)].

Definition sendChat_message (prompt : jsstring) : JSValue :=
  JObject [(js "command", JString (js "sendChat"));
           (js "prompt", JString prompt)].

Definition format_error : jsstring :=
  js "API key must be 30 characters long and contain only lowercase letters and numbers".

(** The [input] listener of [#apiKey]; [value] is [e.target.value]. *)
Definition apiKey_input (value : jsstring) (v : View) : View :=
  let key := trim value in
  if (N.of_nat (length key) =? 30) && regex_test key then
    {| apiKeyStatus_textContent := js "Validating API key...";
       apiKeyStatus_className := [];
       apiKeySection_display := apiKeySection_display v;
       chatSection_display := chatSection_display v;
       modelSelect_options := modelSelect_options v;
       modelSelect_selectedIndex := modelSelect_selectedIndex v;
       promptInput_value := promptInput_value v;
       chatDisplay := chatDisplay v;
       sent := sent v ++ [validateApiKey_message key] |}
  else
    {| apiKeyStatus_textContent := format_error;
       apiKeyStatus_className := js "error";
       apiKeySection_display := apiKeySection_display v;
       chatSection_display := chatSection_display v;
       modelSelect_options := modelSelect_options v;
       modelSelect_selectedIndex := modelSelect_selectedIndex v;
       promptInput_value := promptInput_value v;
       chatDisplay := chatDisplay v;
       sent := sent v |}.

(** [appendMessage(message, type)] *)
Definition appendMessage (message : JSValue) (type : jsstring) (v : View)
  : View :=
  let user := jsstring_eqb type (js "user") in
  let div :=
    MessageDiv
      (js "message " ++ (if user then js "user-message"
                         else js "assistant-message"))
      (if user then js "You: " else js "Assistant: ")
      message in
  {| apiKeyStatus_textContent := apiKeyStatus_textContent v;
     apiKeyStatus_className := apiKeyStatus_className v;
     apiKeySection_display := apiKeySection_display v;
     chatSection_display := chatSection_display v;
     modelSelect_options := modelSelect_options v;
     modelSelect_selectedIndex := modelSelect_selectedIndex v;
     promptInput_value := promptInput_value v;
     chatDisplay := chatDisplay v ++ [div];
     sent := sent v |}.

(** [sendPrompt()] *)
Definition sendPrompt (v : View) : View :=
  let prompt := trim (promptInput_value v) in
  if negb (truthy (JString prompt)) then v else
  let v1 := appendMessage (JString prompt) (js "user") v in
  {| apiKeyStatus_textContent := apiKeyStatus_textContent v1;
     apiKeyStatus_className := apiKeyStatus_className v1;
     apiKeySection_display := apiKeySection_display v1;
     chatSection_display := chatSection_display v1;
     modelSelect_options := modelSelect_options v1;
     modelSelect_selectedIndex := modelSelect_selectedIndex v1;
     promptInput_value := [];
     chatDisplay := chatDisplay v1;
     sent := sent v1 ++ [sendChat_message prompt] |}.

(** The [message] listener of [window]; [message] is [event.data].  The
    dropdown is kept as the list of values its markup is built from: the
    source assigns [innerHTML] the concatenation of one [<option>] element
    per value, and what the browser makes of that markup is not modelled.
    Assigning [innerHTML] puts the selection back on the first option. *)
Definition window_message (message : JSValue) (v : View) : View :=
  match get_field message (js "command") with
  | None => v
  | Some command =>
      if is_literal command "apiKeyValidated" then
        let shown :=
          {| apiKeyStatus_textContent := apiKeyStatus_textContent v;
             apiKeyStatus_className := apiKeyStatus_className v;
             apiKeySection_display := js "none";
             chatSection_display := js "block";
             modelSelect_options := modelSelect_options v;
             modelSelect_selectedIndex := modelSelect_selectedIndex v;
             promptInput_value := promptInput_value v;
             chatDisplay := chatDisplay v;
             sent := sent v |} in
        match get_field message (js "models") with
        | Some (JArray models) =>
            {| apiKeyStatus_textContent := apiKeyStatus_textContent v;
               apiKeyStatus_className := apiKeyStatus_className v;
               apiKeySection_display := js "none";
               chatSection_display := js "block";
               modelSelect_options := models;
               modelSelect_selectedIndex := 0%nat;
               promptInput_value := promptInput_value v;
               chatDisplay := chatDisplay v;
               sent := sent v |}
        | _ => shown
        end
      else if is_literal command "chatResponse" then
        appendMessage (default JUndefined (get_field message (js "content")))
                      (js "assistant") v
      else if is_literal command "error" then
        {| apiKeyStatus_textContent := apiKeyStatus_textContent v;
           apiKeyStatus_className := apiKeyStatus_className v;
           apiKeySection_display := apiKeySection_display v;
           chatSection_display := chatSection_display v;
           modelSelect_options := modelSelect_options v;
           modelSelect_selectedIndex := modelSelect_selectedIndex v;
           promptInput_value := promptInput_value v;
           chatDisplay :=
             chatDisplay v
             ++ [ErrorDiv (default JUndefined
                             (get_field message (js "message")))];
           sent := sent v |}
      else v
  end.

(** The [keypress] listener of [#promptInput]; [key] is [e.key]. *)
Definition promptInput_keypress (key : jsstring) (v : View) : View :=
  if jsstring_eqb key (js "Enter") then sendPrompt v else v.

(** The user edits the prompt box, or picks a model in the dropdown:
    the browser updates the element, no listener of the script runs. *)
Definition type_prompt (value : jsstring) (v : View) : View :=
  {| apiKeyStatus_textContent := apiKeyStatus_textContent v;
     apiKeyStatus_className := apiKeyStatus_className v;
     apiKeySection_display := apiKeySection_display v;
     chatSection_display := chatSection_display v;
     modelSelect_options := modelSelect_options v;
     modelSelect_selectedIndex := modelSelect_selectedIndex v;
     promptInput_value := value;
     chatDisplay := chatDisplay v;
     sent := sent v |}.

Definition choose_model (index : nat) (v : View) : View :=
  {| apiKeyStatus_textContent := apiKeyStatus_textContent v;
     apiKeyStatus_className := apiKeyStatus_className v;
     apiKeySection_display := apiKeySection_display v;
     chatSection_display := chatSection_display v;
     modelSelect_options := modelSelect_options v;
     modelSelect_selectedIndex := index;
     promptInput_value := promptInput_value v;
     chatDisplay := chatDisplay v;
     sent := sent v |}.

Inductive Event : Type :=
  | ApiKeyInput (value : jsstring)
  | PromptTyped (value : jsstring)
  | ModelChosen (index : nat)
  | SendClicked
  | KeyPressed (key : jsstring)
  | HostMessage (message : JSValue).

Definition step (e : Event) (v : View) : View :=
  match e with
  | ApiKeyInput value => apiKey_input value v
  | PromptTyped value => type_prompt value v
  | ModelChosen index => choose_model index v
  | SendClicked => sendPrompt v
  | KeyPressed key => promptInput_keypress key v
  | HostMessage message => window_message message v
  end.

Fixpoint run (events : list Event) (v : View) : View :=
  match events with
  | [] => v
  | e :: rest => run rest (step e v)
  end.

Definition is_model_choice (e : Event) : bool :=
  match e with ModelChosen _ => true | _ => false end.

End View.

(** * Vocabulary of the properties *)

(** The request each handler builds. *)
Definition models_request (apiKey : JSValue) : HttpRequest :=
  mkRequest GET models_url JUndefined [(js "api-key", apiKey)].

Definition chat_request (prompt apiKey : JSValue) : HttpRequest :=
  mkRequest POST chat_url (JObject [(js "prompt", prompt)])
    [(js "api-key", apiKey);
     (js "Content-Type", JString (js "application/json"))].

Definition key_not_found : JSValue :=
  JString (js "API key not found. Please enter your API key.").

Definition validation_failed : JSValue :=
  JString (js "Failed to validate API key").

Definition chat_failed : JSValue :=
  JString (js "Failed to get chat response").

(** The value of the [model] field of an array element. *)
Definition model_field (elem : JSValue) : JSValue :=
  default JUndefined (get_field elem (js "model")).

(** [respects R m]: whatever [m] does, the worlds before and after it are
    related by [R]. *)
Definition respects (R : World -> World -> Prop) {A} (m : M A) : Prop :=
  forall w, R w (snd (m w)).

Definition same_panels (w w' : World) : Prop :=
  currentPanel w' = currentPanel w /\ openPanels w' = openPanels w
  /\ nextPanel w' = nextPanel w /\ reveals w' = reveals w.

Definition panel_invariant (w : World) : Prop :=
  openPanels w = option_list (currentPanel w)
  /\ forall p, p ∈ openPanels w -> (p < nextPanel w)%nat.

(** Events that are not webview messages touch neither the settings nor
    the two logs of outgoing traffic. *)
Definition same_logs (w w' : World) : Prop :=
  config w' = config w /\ configWrites w' = configWrites w
  /\ posted w' = posted w /\ requests w' = requests w.

Definition is_endpoint (r : HttpRequest) : Prop :=
  (req_method r = GET /\ req_url r = js "https://api.qbraid.com/api/chat/models")
  \/ (req_method r = POST /\ req_url r = js "https://api.qbraid.com/api/chat").

Definition requests_extended (w w' : World) : Prop :=
  exists new, requests w' = requests w ++ new /\ Forall is_endpoint new.

Definition same_settings (w w' : World) : Prop :=
  config w' = config w /\ configWrites w' = configWrites w.

Definition is_apiKey_write (call : jsstring * JSValue) : Prop :=
  fst call = js "qbraidChat.apiKey".

Definition settings_extended (w w' : World) : Prop :=
  (exists new,
     configWrites w' = configWrites w ++ new /\ Forall is_apiKey_write new)
  /\ forall key,
       key <> js "qbraidChat.apiKey" -> config w' !! key = config w !! key.

Definition is_lowercase_letter (c : N) : Prop :=
  N_of_ascii "a" <= c <= N_of_ascii "z".

Definition is_digit (c : N) : Prop :=
  N_of_ascii "0" <= c <= N_of_ascii "9".

(** Exactly 30 characters, lowercase letters and digits only. *)
Definition well_formed_key (key : jsstring) : Prop :=
  length key = 30%nat
  /\ Forall (fun c => is_lowercase_letter c \/ is_digit c) key.

Definition forget_model (v : View.View) : View.View :=
  View.choose_model 0 v.

Definition is_webview_message (message : JSValue) : Prop :=
  exists s,
    message = JObject [(js "command", JString (js "validateApiKey"));
                       (js "apiKey", JString s)]
    \/ message = JObject [(js "command", JString (js "sendChat"));
                          (js "prompt", JString s)].

Definition carries_only_prompt (prompt : JSValue) (r : HttpRequest) : Prop :=
  req_method r = POST /\ req_url r = js "https://api.qbraid.com/api/chat"
  /\ req_body r = JObject [(js "prompt", prompt)].

Definition chat_requests_added (prompt : JSValue) (w w' : World) : Prop :=
  exists new,
    requests w' = requests w ++ new
    /\ Forall (carries_only_prompt prompt) new.

Definition key30 : jsstring := js "abcdefghij0123456789abcdefghij".

(** A remote service that gives every request the same answer, and a
    settings store that accepts every write. *)
Definition service (st : Z) (body : JSValue) : Environment :=
  {| network := fun _ => Responds (mkResponse st body);
     settings_accept := fun _ _ => true |}.

Definition service_down : Environment :=
  {| network := fun _ => NoResponse; settings_accept := fun _ _ => true |}.

Definition hello_body : JSValue :=
  JObject [(js "content", JString (js "Hello!"))].

Definition two_models : list JSValue :=
  [JObject [(js "model", JString (js "gpt-4o"))];
   JObject [(js "model", JString (js "claude"))]].

(** ** Further vocabulary *)

(** An element of the models array whose [model] field can be read. *)
Definition readable (elem : JSValue) : Prop :=
  elem <> JNull /\ elem <> JUndefined.

(** The three messages the host sends to the webview. *)
Definition is_host_message (message : JSValue) : Prop :=
  (exists models,
     message = JObject [(js "command", JString (js "apiKeyValidated"));
                        (js "models", JArray models)])
  \/ (exists content,
        message = JObject [(js "command", JString (js "chatResponse"));
                           (js "content", content)])
  \/ (exists text,
        message = JObject [(js "command", JString (js "error"));
                           (js "message", text)]).

(** The header every request of the extension starts with. *)
Definition api_key_header (r : HttpRequest) : option JSValue :=
  match req_headers r with
  | (name, value) :: _ =>
      if jsstring_eqb name (js "api-key") then Some value else None
  | [] => None
  end.

(** White space only (or nothing at all). *)
Definition blank (s : jsstring) : Prop :=
  Forall (fun c => is_js_space c = true) s.

Definition is_webview_event (e : Event) : bool :=
  match e with WebviewMessage _ _ => true | _ => false end.

(** A request that names its key: the first header is [api-key], and on a
    POST its value is truthy. *)
Definition well_keyed (r : HttpRequest) : Prop :=
  exists k,
    api_key_header r = Some k /\ (req_method r = POST -> truthy k = true).

(** What handling events adds to the three logs: host messages only,
    requests that name their key only, and writes only of keys that a
    request to the models endpoint carried. *)
Definition traffic_added (w w' : World) : Prop :=
  exists newP newR newW,
    posted w' = posted w ++ newP
    /\ requests w' = requests w ++ newR
    /\ configWrites w' = configWrites w ++ newW
    /\ Forall (fun pm => is_host_message (snd pm)) newP
    /\ Forall well_keyed newR
    /\ Forall (fun kv => In (models_request (snd kv)) newR) newW.

(** Not empty, and no white space at either end. *)
Definition trimmed (s : jsstring) : Prop :=
  s <> []
  /\ (forall c, head s = Some c -> is_js_space c = false)
  /\ (forall c, last s = Some c -> is_js_space c = false).

(** The two messages of the webview, with their payload checked. *)
Definition is_checked_message (message : JSValue) : Prop :=
  (exists key,
     message = JObject [(js "command", JString (js "validateApiKey"));
                        (js "apiKey", JString key)]
     /\ well_formed_key key)
  \/ (exists prompt,
        message = JObject [(js "command", JString (js "sendChat"));
                           (js "prompt", JString prompt)]
        /\ trimmed prompt).

(** The host tells the webview that the key is valid. *)
Definition announces_models (e : View.Event) : Prop :=
  exists message,
    e = View.HostMessage message
    /\ get_field message (js "command")
       = Some (JString (js "apiKeyValidated")).

(** Further concrete material. *)

(** A settings store that refuses every write. *)
Definition read_only_store (st : Z) (body : JSValue) : Environment :=
  {| network := fun _ => Responds (mkResponse st body);
     settings_accept := fun _ _ => false |}.

(** The world after the command, with [key30] already in the settings. *)
Definition panel_with_key (env : Environment) : World :=
  run env [OpenChat] (start {[apiKey_setting := JString key30]}).

(** The world after the command, with empty settings. *)
Definition panel_without_key (env : Environment) : World :=
  run env [OpenChat] (start ∅).

(** The page with a prompt typed into the input box. *)
Definition page_with_prompt (value : string) : View.View :=
  View.type_prompt (js value) View.loaded.

(** * Properties *)

(** ** Trimming

    [trim] removes a run of white space at either end and nothing else, and
    what is left neither starts nor ends with white space. *)

Lemma trimStart_spec s :
  exists pre,
    s = pre ++ trimStart s
    /\ Forall (fun c => is_js_space c = true) pre
    /\ (forall c, head (trimStart s) = Some c -> is_js_space c = false).
Proof.
  induction s as [|c r (pre & Hr & Hpre & Hhead)]; cbn [trimStart].
  - exists []. split; [done |]. split; [constructor | done].
  - destruct (is_js_space c) eqn:Hc.
    + exists (c :: pre). split; [by rewrite <- app_comm_cons, <- Hr |].
      split; [by constructor | done].
    + exists []. split; [done |]. split; [constructor |].
      intros c' [= <-]. done.
Qed.

Lemma last_rev {A} (l : list A) : last (rev l) = head l.
Proof. destruct l as [|a l]; [done |]. cbn [rev]. apply last_snoc. Qed.

Lemma trim_spec s :
  exists pre post,
    s = pre ++ trim s ++ post
    /\ Forall (fun c => is_js_space c = true) pre
    /\ Forall (fun c => is_js_space c = true) post
    /\ (forall c, head (trim s) = Some c -> is_js_space c = false)
    /\ (forall c, last (trim s) = Some c -> is_js_space c = false).
Proof.
  destruct (trimStart_spec s) as (pre & Hs & Hpre & Hhead).
  destruct (trimStart_spec (rev (trimStart s))) as (erp & Ht & Herp & Hlast).
  unfold trim, trimEnd.
  set (t := trimStart s) in *. set (u := trimStart (rev t)) in *.
  assert (t = rev u ++ rev erp) as Htu.
  { rewrite <- rev_app_distr, <- Ht. by rewrite rev_involutive. }
  exists pre, (rev erp). split; [by rewrite <- Htu |].
  split; [done |]. split; [by apply Forall_rev |]. split.
  - intros c Hc. apply Hhead. rewrite Htu.
    destruct (rev u); [done |]. exact Hc.
  - intros c Hc. apply Hlast. by rewrite last_rev in Hc.
Qed.

Example trim_padded : trim (js "  ab 12 ") = js "ab 12".
Proof. reflexivity. Qed.

Example regex_test_accepts : View.regex_test (js "abc123") = true.
Proof. reflexivity. Qed.

Example regex_test_rejects_upper : View.regex_test (js "abC123") = false.
Proof. reflexivity. Qed.

Example regex_test_rejects_empty : View.regex_test [] = false.
Proof. reflexivity. Qed.

(** ** Dispatch of the two messages the webview sends *)

Lemma validateApiKey_message_fields key :
  get_field (View.validateApiKey_message key) (js "command")
  = Some (JString (js "validateApiKey"))
  /\ get_field (View.validateApiKey_message key) (js "apiKey")
    = Some (JString key).
Proof. split; vm_compute; reflexivity. Qed.

Lemma sendChat_message_fields prompt :
  get_field (View.sendChat_message prompt) (js "command")
  = Some (JString (js "sendChat"))
  /\ get_field (View.sendChat_message prompt) (js "prompt")
    = Some (JString prompt).
Proof. split; vm_compute; reflexivity. Qed.

Lemma onDidReceiveMessage_validateApiKey env key w p :
  currentPanel w = Some p ->
  onDidReceiveMessage env (View.validateApiKey_message key) w
  = handleApiKeyValidation env (JString key) (Some p) w.
Proof.
  intros Hcur. destruct (validateApiKey_message_fields key) as [Hc Hk].
  unfold onDidReceiveMessage, mbind, M_bind, get_currentPanel.
  rewrite Hcur, Hc, Hk. cbn [is_panel negb or_type_error mret M_ret].
  replace (is_literal (JString (js "validateApiKey")) "validateApiKey")
    with true by (vm_compute; reflexivity).
  by rewrite Hcur.
Qed.

Lemma onDidReceiveMessage_sendChat env prompt w p :
  currentPanel w = Some p ->
  onDidReceiveMessage env (View.sendChat_message prompt) w
  = handleChatRequest env (JString prompt) (Some p) w.
Proof.
  intros Hcur. destruct (sendChat_message_fields prompt) as [Hc Hk].
  unfold onDidReceiveMessage, mbind, M_bind, get_currentPanel.
  rewrite Hcur, Hc, Hk. cbn [is_panel negb or_type_error mret M_ret].
  replace (is_literal (JString (js "sendChat")) "validateApiKey")
    with false by (vm_compute; reflexivity).
  replace (is_literal (JString (js "sendChat")) "sendChat")
    with true by (vm_compute; reflexivity).
  by rewrite Hcur.
Qed.

Lemma onDidReceiveMessage_no_panel env message w :
  currentPanel w = None ->
  onDidReceiveMessage env message w = (Normal tt, w).
Proof.
  intros Hcur. unfold onDidReceiveMessage, mbind, M_bind, get_currentPanel.
  by rewrite Hcur.
Qed.

(** Unfolding one handler call down to the host primitives. *)
Ltac unfold_handler :=
  unfold exec, handleApiKeyValidation, handleChatRequest, try_catch,
    axios_get, axios_post, axios_request, configuration_get,
    configuration_update, postMessage, or_type_error, throw,
    mbind, M_bind, mret, M_ret;
  cbn [is_panel negb andb fst snd currentPanel openPanels nextPanel reveals
       config configWrites posted requests].

(** C7: key gating of chat.  When a [sendChat] message is handled while the
    setting [qbraidChat.apiKey] is absent or the empty string, the host
    posts the error message 'API key not found. Please enter your API key.'
    to the webview and issues no HTTP request. *)
Theorem chat_needs_key env prompt (p : Panel) (w : World) :
  currentPanel w = Some p ->
  config w !! apiKey_setting = None
  \/ config w !! apiKey_setting = Some (JString []) ->
  let w' := exec (onDidReceiveMessage env (View.sendChat_message prompt)) w in
  posted w' = posted w ++ [(p, error_message key_not_found)]
  /\ requests w' = requests w.
Proof.
  intros Hcur Hkey. unfold exec.
  rewrite (onDidReceiveMessage_sendChat _ _ _ _ Hcur).
  assert (truthy (default JUndefined (config w !! apiKey_setting)) = false)
    as Hfalsy by (destruct Hkey as [-> | ->]; reflexivity).
  unfold_handler. rewrite Hfalsy. done.
Qed.

(** ** Reading fields and mapping over arrays *)

Lemma get_field_None v name :
  get_field v name = None <-> v = JUndefined \/ v = JNull.
Proof.
  destruct v; cbn; split; intros H; try discriminate H; auto;
    destruct H; discriminate.
Qed.

Lemma map_elems_Some f elems ms :
  map_elems f elems = Some ms ->
  ms = List.map (fun x => default JUndefined (f x)) elems
  /\ Forall (fun x => is_Some (f x)) elems.
Proof.
  revert ms. induction elems as [|x rest IH]; intros ms; cbn.
  - intros [= <-]. split; [done | constructor].
  - destruct (f x) as [y|] eqn:Hx; [|done].
    destruct (map_elems f rest) as [ys|]; [|done].
    intros [= <-]. destruct (IH ys eq_refl) as [-> Hall].
    split; [done |]. constructor; [by rewrite Hx | done].
Qed.

Lemma map_elems_total f elems :
  Forall (fun x => is_Some (f x)) elems ->
  map_elems f elems = Some (List.map (fun x => default JUndefined (f x)) elems).
Proof.
  induction 1 as [|x rest [y Hy] _ IH]; cbn; [done |].
  by rewrite Hy, IH.
Qed.

(** ** The chat handler *)

(** With a key in the settings the handler sends the chat request. *)
Lemma handleChatRequest_requests env prompt p w apiKey :
  config w !! apiKey_setting = Some apiKey ->
  truthy apiKey = true ->
  requests (exec (handleChatRequest env prompt (Some p)) w)
  = requests w ++ [chat_request prompt apiKey].
Proof.
  intros Hcfg Htruthy. unfold_handler. rewrite Hcfg. cbn [from_option id].
  rewrite Htruthy. cbn [negb]. unfold chat_request.
  destruct (network env _) as [resp|]; cbn; [|done].
  destruct (validateStatus (status resp)); cbn; [|done].
  destruct (status resp =? 200)%Z; cbn; [|done].
  destruct (get_field (data resp) (js "content")); done.
Qed.

Lemma handleChatRequest_answered env prompt p w apiKey resp :
  config w !! apiKey_setting = Some apiKey ->
  truthy apiKey = true ->
  network env (requests w ++ [chat_request prompt apiKey]) = Responds resp ->
  status resp = 200%Z ->
  posted (exec (handleChatRequest env prompt (Some p)) w)
  = posted w
    ++ [(p, match get_field (data resp) (js "content") with
            | Some content => chatResponse_message content
            | None => error_message chat_failed
            end)].
Proof.
  intros Hcfg Htruthy Hnet Hst. unfold_handler. rewrite Hcfg. cbn [from_option id].
  rewrite Htruthy. cbn [negb]. unfold chat_request in Hnet. rewrite Hnet.
  unfold validateStatus. rewrite Hst. cbn. rewrite Hst. cbn.
  destruct (get_field (data resp) (js "content")); done.
Qed.

(** C4, as amended: prompt forwarding.  For every [sendChat] message from
    the webview, when the setting [qbraidChat.apiKey] holds a non-empty
    string, the host issues a POST to the chat endpoint whose JSON body
    carries the prompt and whose headers carry the stored key; on a
    status-200 response whose body is neither [null] nor [undefined] it
    posts exactly one [chatResponse] message to the webview, containing the
    [content] field of the response body. *)
Theorem prompt_forwarded env prompt key (p : Panel) (w : World) :
  currentPanel w = Some p ->
  config w !! apiKey_setting = Some (JString key) ->
  key <> [] ->
  let w' := exec (onDidReceiveMessage env (View.sendChat_message prompt)) w in
  requests w'
  = requests w
    ++ [mkRequest POST chat_url (JObject [(js "prompt", JString prompt)])
          [(js "api-key", JString key);
           (js "Content-Type", JString (js "application/json"))]]
  /\ forall resp content,
       network env (requests w') = Responds resp ->
       status resp = 200%Z ->
       get_field (data resp) (js "content") = Some content ->
       posted w' = posted w ++ [(p, chatResponse_message content)].
Proof.
  intros Hcur Hcfg Hkey. unfold exec.
  rewrite (onDidReceiveMessage_sendChat _ _ _ _ Hcur).
  assert (truthy (JString key) = true) as Htruthy by (by destruct key).
  pose proof (handleChatRequest_requests env (JString prompt) p w _
                Hcfg Htruthy) as Hreq.
  unfold exec in Hreq. split; [exact Hreq |].
  intros resp content Hnet Hst Hcontent. rewrite Hreq in Hnet.
  pose proof (handleChatRequest_answered env (JString prompt) p w _ resp
                Hcfg Htruthy Hnet Hst) as Hpost.
  unfold exec in Hpost. by rewrite Hpost, Hcontent.
Qed.

(** ** The key-validation handler *)

Lemma handleApiKeyValidation_requests env apiKey p w :
  requests (exec (handleApiKeyValidation env apiKey (Some p)) w)
  = requests w ++ [models_request apiKey].
Proof.
  unfold_handler. unfold models_request.
  destruct (network env _) as [resp|]; cbn; [|done].
  destruct (validateStatus (status resp)); cbn; [|done].
  destruct (status resp =? 200)%Z; cbn; [|done].
  destruct (array_map _ (data resp)); cbn; [|done].
  destruct (settings_accept env apiKey_setting apiKey); done.
Qed.

Lemma handleApiKeyValidation_thrown env apiKey p w error :
  fst (axios_get env models_url [(js "api-key", apiKey)] w) = Thrown error ->
  let w' := exec (handleApiKeyValidation env apiKey (Some p)) w in
  config w' = config w
  /\ configWrites w' = configWrites w
  /\ posted w'
     = posted w
       ++ [(p, error_message
                 (js_or (error_response_data error) validation_failed))].
Proof.
  unfold_handler.
  destruct (network env _) as [resp|]; cbn.
  - destruct (validateStatus (status resp)); cbn; [done |].
    by intros [= <-].
  - by intros [= <-].
Qed.

Lemma handleApiKeyValidation_written env apiKey p w :
  let w' := exec (handleApiKeyValidation env apiKey (Some p)) w in
  config w' <> config w \/ configWrites w' <> configWrites w ->
  exists resp,
    network env (requests w ++ [models_request apiKey]) = Responds resp
    /\ status resp = 200%Z.
Proof.
  unfold_handler. unfold models_request.
  destruct (network env _) as [resp|]; cbn; [|intros [[]|[]]; done].
  destruct (validateStatus (status resp)); cbn; [|intros [[]|[]]; done].
  destruct (status resp =? 200)%Z eqn:Hst; cbn; [|intros [[]|[]]; done].
  intros _. exists resp. split; [done | by apply Z.eqb_eq].
Qed.

Lemma handleApiKeyValidation_answered env apiKey p w resp elems :
  network env (requests w ++ [models_request apiKey]) = Responds resp ->
  status resp = 200%Z ->
  data resp = JArray elems ->
  exists new,
    posted (exec (handleApiKeyValidation env apiKey (Some p)) w)
    = posted w ++ new
    /\ (forall q models,
          In (q, apiKeyValidated_message models) new ->
          models = List.map model_field elems)
    /\ (Forall (fun elem => elem <> JNull /\ elem <> JUndefined) elems ->
        exists rest,
          new = (p, apiKeyValidated_message (List.map model_field elems))
                  :: rest).
Proof.
  intros Hnet Hst Hdata. unfold_handler. unfold models_request in Hnet.
  rewrite Hnet. unfold validateStatus. rewrite Hst. cbn. rewrite Hst, Hdata.
  cbn [array_map].
  destruct (map_elems _ elems) as [models|] eqn:Hmap; cbn.
  - apply map_elems_Some in Hmap as [-> _]. fold model_field.
    change (fun x => default JUndefined (get_field x (js "model")))
      with model_field.
    destruct (settings_accept env apiKey_setting apiKey); cbn.
    + eexists [_]. split; [done |]. split; [|by eexists].
      intros q models [[= _ <-] | []]. done.
    + eexists [_; _]. split; [by rewrite <- app_assoc |].
      split; [|by eexists].
      intros q models [[= _ <-] | [[=] | []]]. done.
  - eexists [_]. split; [done |]. split.
    + intros q models [[=] | []].
    + intros Hall. rewrite map_elems_total in Hmap; [done |].
      eapply Forall_impl; [exact Hall |]. intros elem [Hnull Hundef]; cbn.
      destruct (get_field elem (js "model")) eqn:Hget; [by eexists |].
      apply get_field_None in Hget as [-> | ->]; done.
Qed.

(** C3: model discovery.  On a status-200 response from the GET models
    endpoint whose body is an array, every [apiKeyValidated] message the
    handler posts to the webview carries exactly the values of the [model]
    fields of the elements of the response array, in the order of the
    response; and such a message is posted first whenever no element is
    [null] or [undefined]. *)
Theorem models_listed_in_order env key (p : Panel) (w : World) resp elems :
  currentPanel w = Some p ->
  network env (requests w ++ [models_request (JString key)]) = Responds resp ->
  status resp = 200%Z ->
  data resp = JArray elems ->
  let w' :=
    exec (onDidReceiveMessage env (View.validateApiKey_message key)) w in
  exists new,
    posted w' = posted w ++ new
    /\ (forall q models,
          In (q, apiKeyValidated_message models) new ->
          models = List.map model_field elems)
    /\ (Forall (fun elem => elem <> JNull /\ elem <> JUndefined) elems ->
        exists rest,
          new = (p, apiKeyValidated_message (List.map model_field elems))
                  :: rest).
Proof.
  intros Hcur Hnet Hst Hdata. unfold exec.
  rewrite (onDidReceiveMessage_validateApiKey _ _ _ _ Hcur).
  exact (handleApiKeyValidation_answered env _ p w resp elems Hnet Hst Hdata).
Qed.

(** C8, as amended: validation atomicity.  If the GET request to the models
    endpoint throws (no response, or a status outside 2xx), the setting
    [qbraidChat.apiKey] and the whole settings store are left unchanged and
    the webview receives exactly one error message, whose text is the body
    of the error response when that body is truthy (not [undefined], [null],
    [false], [0] or the empty string) and 'Failed to validate API key'
    otherwise; the settings are written only after a status-200 response. *)
Theorem validation_failure_keeps_key env key (p : Panel) (w : World) :
  currentPanel w = Some p ->
  let w' :=
    exec (onDidReceiveMessage env (View.validateApiKey_message key)) w in
  (forall error,
     fst (axios_get env models_url [(js "api-key", JString key)] w)
     = Thrown error ->
     config w' = config w
     /\ configWrites w' = configWrites w
     /\ posted w'
        = posted w
          ++ [(p, error_message
                    (if truthy (error_response_data error)
                     then error_response_data error
                     else validation_failed))])
  /\ (config w' <> config w \/ configWrites w' <> configWrites w ->
      exists resp,
        network env (requests w ++ [models_request (JString key)])
        = Responds resp
        /\ status resp = 200%Z).
Proof.
  intros Hcur. unfold exec.
  rewrite (onDidReceiveMessage_validateApiKey _ _ _ _ Hcur). split.
  - intros error Hthrown.
    exact (handleApiKeyValidation_thrown env _ p w error Hthrown).
  - exact (handleApiKeyValidation_written env _ p w).
Qed.

(** ** Relating the world before and after a statement

    [respects R m]: whatever [m] does, the worlds before and after are
    related by [R].  For a reflexive and transitive [R] this goes through
    sequencing and [try]/[catch], so it is enough to look at the host
    primitives a handler calls. *)

Create HintDb respects.

Section Respects.
Variable R : World -> World -> Prop.
Hypothesis R_refl : forall w, R w w.
Hypothesis R_trans : forall w1 w2 w3, R w1 w2 -> R w2 w3 -> R w1 w3.

Lemma respects_mret {A} (a : A) : respects R (mret a).
Proof. intros w. apply R_refl. Qed.

Lemma respects_throw {A} (e : JSError) : respects R (@throw A e).
Proof. intros w. apply R_refl. Qed.

Lemma respects_bind {A B} (m : M A) (f : A -> M B) :
  respects R m -> (forall a, respects R (f a)) -> respects R (m ≫= f).
Proof.
  intros Hm Hf w. unfold mbind, M_bind. specialize (Hm w).
  destruct (m w) as [[a|e] w1]; cbn in *; [|done].
  eapply R_trans; [exact Hm | apply Hf].
Qed.

Lemma respects_try_catch {A} (body : M A) (handler : JSError -> M A) :
  respects R body -> (forall e, respects R (handler e)) ->
  respects R (try_catch body handler).
Proof.
  intros Hm Hh w. unfold try_catch. specialize (Hm w).
  destruct (body w) as [[a|e] w1]; cbn in *; [done |].
  eapply R_trans; [exact Hm | apply Hh].
Qed.

Lemma respects_or_type_error {A} (o : option A) : respects R (or_type_error o).
Proof. destruct o; [apply respects_mret | apply respects_throw]. Qed.

Lemma respects_get_currentPanel : respects R get_currentPanel.
Proof. intros w. apply R_refl. Qed.

Lemma respects_configuration_get key : respects R (configuration_get key).
Proof. intros w. apply R_refl. Qed.

Variable env : Environment.
Hypothesis R_postMessage : forall p msg, respects R (postMessage (Some p) msg).

Lemma respects_postMessage panel msg : respects R (postMessage panel msg).
Proof. destruct panel; [apply R_postMessage | intros w; apply R_refl]. Qed.

Hint Resolve respects_mret respects_throw respects_or_type_error
  respects_get_currentPanel respects_configuration_get
  respects_postMessage : respects.

Ltac respects_step :=
  first [ apply respects_bind; [|intros ?]
        | apply respects_try_catch; [|intros ?]
        | match goal with
          | |- respects _ (if ?b then _ else _) => destruct b
          | |- respects _ (match ?o with Some _ => _ | None => _ end) =>
              destruct o
          end
        | solve [eauto with respects] ].

Lemma respects_handleChatRequest prompt panel :
  (forall apiKey, respects R (axios_request env (chat_request prompt apiKey))) ->
  respects R (handleChatRequest env prompt panel).
Proof.
  intros Hpost. unfold handleChatRequest, axios_post.
  repeat respects_step.
Qed.

Lemma respects_handleApiKeyValidation apiKey panel :
  respects R (axios_request env (models_request apiKey)) ->
  respects R (configuration_update env apiKey_setting apiKey) ->
  respects R (handleApiKeyValidation env apiKey panel).
Proof.
  intros Hget Hupdate. unfold handleApiKeyValidation, axios_get.
  repeat respects_step; done.
Qed.

Lemma respects_onDidReceiveMessage message :
  (forall apiKey, respects R (axios_request env (models_request apiKey))) ->
  (forall prompt apiKey,
     respects R (axios_request env (chat_request prompt apiKey))) ->
  (forall v, respects R (configuration_update env apiKey_setting v)) ->
  respects R (onDidReceiveMessage env message).
Proof.
  intros Hget Hpost Hupdate. unfold onDidReceiveMessage.
  repeat respects_step.
  - apply respects_handleApiKeyValidation; auto.
  - apply respects_handleChatRequest; auto.
Qed.

End Respects.

(** ** Panels are left alone by the message handlers *)

Lemma onDidReceiveMessage_same_panels env message w :
  same_panels w (exec (onDidReceiveMessage env message) w).
Proof.
  revert w. apply (respects_onDidReceiveMessage same_panels).
  - by intros w.
  - intros w1 w2 w3 (?&?&?&?) (?&?&?&?). repeat split; congruence.
  - by intros p msg w.
  - intros apiKey w. unfold axios_request.
    destruct (network env _) as [r|]; [destruct (validateStatus _)|]; done.
  - intros prompt apiKey w. unfold axios_request.
    destruct (network env _) as [r|]; [destruct (validateStatus _)|]; done.
  - intros v w. unfold configuration_update.
    destruct (settings_accept env _ _); done.
Qed.

(** ** The panel invariant *)

Lemma panel_invariant_start settings : panel_invariant (start settings).
Proof. split; [done |]. intros p Hp. cbn in Hp. by apply elem_of_nil in Hp. Qed.

Lemma panel_dispose_current p w :
  panel_invariant w -> currentPanel w = Some p ->
  let w' := exec (panel_dispose p) w in
  currentPanel w' = None /\ openPanels w' = []
  /\ nextPanel w' = nextPanel w /\ reveals w' = reveals w.
Proof.
  intros [Hopen _] Hcur. unfold exec, panel_dispose.
  rewrite Hopen, Hcur. cbn [option_list].
  rewrite bool_decide_eq_true_2 by apply list_elem_of_here.
  cbn. rewrite decide_False by (intros H; by apply H). done.
Qed.

Lemma panel_dispose_other p w :
  panel_invariant w -> currentPanel w <> Some p ->
  exec (panel_dispose p) w = w.
Proof.
  intros [Hopen _] Hcur. unfold exec, panel_dispose. rewrite Hopen.
  rewrite bool_decide_eq_false_2; [done |].
  destruct (currentPanel w) as [q|]; cbn.
  - intros ->%list_elem_of_singleton. done.
  - apply not_elem_of_nil.
Qed.

Lemma openChat_no_panel w :
  currentPanel w = None ->
  let w' := exec openChat w in
  currentPanel w' = Some (nextPanel w)
  /\ openPanels w' = nextPanel w :: openPanels w
  /\ nextPanel w' = S (nextPanel w) /\ reveals w' = reveals w.
Proof.
  intros Hcur. unfold exec, openChat, mbind, M_bind, get_currentPanel.
  rewrite Hcur. done.
Qed.

Lemma openChat_panel p w :
  currentPanel w = Some p ->
  let w' := exec openChat w in
  currentPanel w' = Some p /\ openPanels w' = openPanels w
  /\ nextPanel w' = nextPanel w /\ reveals w' = reveals w ++ [p].
Proof.
  intros Hcur. unfold exec, openChat, mbind, M_bind, get_currentPanel.
  rewrite Hcur. done.
Qed.

Lemma deactivate_panel p w :
  currentPanel w = Some p -> exec deactivate w = exec (panel_dispose p) w.
Proof.
  intros Hcur. unfold exec, deactivate, mbind, M_bind, get_currentPanel.
  by rewrite Hcur.
Qed.

Lemma deactivate_no_panel w : currentPanel w = None -> exec deactivate w = w.
Proof.
  intros Hcur. unfold exec, deactivate, mbind, M_bind, get_currentPanel.
  by rewrite Hcur.
Qed.

Lemma panel_invariant_step env e w :
  panel_invariant w -> panel_invariant (step env e w).
Proof.
  intros Hinv. pose proof Hinv as [Hopen Hfresh].
  destruct e as [|p|p message|]; unfold step; cbn [handle].
  - destruct (currentPanel w) as [p|] eqn:Hcur.
    + destruct (openChat_panel p w Hcur) as (Hc & Ho & Hn & _).
      split; [by rewrite Hc, Ho, Hopen |].
      intros q. rewrite Ho, Hn. apply Hfresh.
    + destruct (openChat_no_panel w Hcur) as (Hc & Ho & Hn & _).
      rewrite Hopen in Ho. cbn in Ho.
      split; [by rewrite Hc, Ho |].
      intros q. rewrite Ho, Hn. intros ->%list_elem_of_singleton. lia.
  - destruct (decide (currentPanel w = Some p)) as [Hcur|Hcur].
    + destruct (panel_dispose_current p w Hinv Hcur) as (Hc & Ho & Hn & _).
      split; [by rewrite Hc, Ho |].
      intros q. rewrite Ho. by intros ?%elem_of_nil.
    + by rewrite (panel_dispose_other p w Hinv Hcur).
  - unfold exec. destruct (bool_decide (p ∈ openPanels w)); [|done].
    destruct (onDidReceiveMessage_same_panels env message w)
      as (Hc & Ho & Hn & _).
    unfold exec in *. split; [by rewrite Hc, Ho |].
    intros q. rewrite Ho, Hn. apply Hfresh.
  - destruct (currentPanel w) as [p|] eqn:Hcur.
    + rewrite (deactivate_panel p w Hcur).
      destruct (panel_dispose_current p w Hinv Hcur) as (Hc & Ho & Hn & _).
      split; [by rewrite Hc, Ho |].
      intros q. rewrite Ho. by intros ?%elem_of_nil.
    + by rewrite (deactivate_no_panel w Hcur).
Qed.

Lemma panel_invariant_run env events w :
  panel_invariant w -> panel_invariant (run env events w).
Proof.
  revert w. induction events as [|e rest IH]; intros w Hinv; [done |].
  cbn. apply IH. by apply panel_invariant_step.
Qed.

(** Only the command, in a world without a panel, makes the host open one. *)
Lemma step_creates env e w :
  panel_invariant w ->
  nextPanel (step env e w) <> nextPanel w ->
  e = OpenChat /\ currentPanel w = None.
Proof.
  intros Hinv Hnext. destruct e as [|p|p message|]; unfold step in Hnext;
    cbn [handle] in Hnext.
  - destruct (currentPanel w) as [p|] eqn:Hcur; [|done].
    destruct (openChat_panel p w Hcur) as (_ & _ & Hn & _). done.
  - destruct (decide (currentPanel w = Some p)) as [Hcur|Hcur].
    + destruct (panel_dispose_current p w Hinv Hcur) as (_ & _ & Hn & _).
      done.
    + by rewrite (panel_dispose_other p w Hinv Hcur) in Hnext.
  - unfold exec in Hnext.
    destruct (bool_decide (p ∈ openPanels w)); [|done].
    destruct (onDidReceiveMessage_same_panels env message w)
      as (_ & _ & Hn & _). done.
  - destruct (currentPanel w) as [p|] eqn:Hcur.
    + rewrite (deactivate_panel p w Hcur) in Hnext.
      destruct (panel_dispose_current p w Hinv Hcur) as (_ & _ & Hn & _).
      done.
    + by rewrite (deactivate_no_panel w Hcur) in Hnext.
Qed.

(** C1: at most one chat panel is live at any time.  In every world the
    extension can reach, the host shows at most one panel and it is the one
    [currentPanel] holds; when the [openChat] command runs while
    [currentPanel] is defined, that panel is revealed and no panel is
    created; and the host is asked for a new panel only by the command and
    only while [currentPanel] is [undefined]. *)
Theorem at_most_one_panel env settings events :
  let w := run env events (start settings) in
  (length (openPanels w) <= 1)%nat
  /\ openPanels w = option_list (currentPanel w)
  /\ (forall p,
        currentPanel w = Some p ->
        let w' := step env OpenChat w in
        reveals w' = reveals w ++ [p]
        /\ currentPanel w' = Some p
        /\ openPanels w' = openPanels w
        /\ nextPanel w' = nextPanel w)
  /\ (forall e,
        nextPanel (step env e w) <> nextPanel w ->
        e = OpenChat /\ currentPanel w = None).
Proof.
  intros w.
  assert (panel_invariant w) as Hinv
    by apply panel_invariant_run, panel_invariant_start.
  split; [|split; [|split]].
  - destruct Hinv as [-> _]. destruct (currentPanel w); cbn; lia.
  - apply Hinv.
  - intros p Hcur. destruct (openChat_panel p w Hcur) as (?&?&?&?). done.
  - intros e. by apply step_creates.
Qed.

Lemma reset_after_disposal env p w :
  panel_invariant w ->
  currentPanel w = Some p ->
  let closed := step env (PanelClosed p) w in
  let reopened := step env OpenChat closed in
  currentPanel closed = None
  /\ openPanels closed = []
  /\ currentPanel reopened = Some (nextPanel w)
  /\ openPanels reopened = [nextPanel w]
  /\ (forall q, q ∈ openPanels w -> q <> nextPanel w)
  /\ reveals reopened = reveals w.
Proof.
  intros Hinv Hcur closed reopened.
  destruct (panel_dispose_current p w Hinv Hcur) as (Hc & Ho & Hn & Hr).
  subst closed reopened. unfold step. cbn [handle].
  set (closed := exec (panel_dispose p) w) in *.
  destruct (openChat_no_panel closed Hc) as (Hc' & Ho' & _ & Hr').
  rewrite Hn in Hc', Ho'. rewrite Ho in Ho'. rewrite Hr in Hr'.
  repeat split; try done.
  intros q Hq. destruct Hinv as [_ Hfresh]. specialize (Hfresh q Hq). lia.
Qed.

Lemma openChat_current env w :
  panel_invariant w ->
  exists p,
    currentPanel (step env OpenChat w) = Some p
    /\ openPanels (step env OpenChat w) = [p].
Proof.
  intros [Hopen _]. unfold step. cbn [handle].
  destruct (currentPanel w) as [p|] eqn:Hcur.
  - destruct (openChat_panel p w Hcur) as (Hc & Ho & _).
    exists p. by rewrite Hc, Ho, Hopen.
  - destruct (openChat_no_panel w Hcur) as (Hc & Ho & _).
    exists (nextPanel w). by rewrite Hc, Ho, Hopen.
Qed.

(** C10: panel lifecycle reset.  In every world the extension can reach,
    when the open panel is disposed [currentPanel] is reset to [undefined],
    so that the next [openChat] command creates a fresh panel, one the host
    never showed before, and reveals nothing; [deactivate] disposes the
    current panel when there is one and does nothing otherwise.  Such a
    panel is there after every [openChat] command: from any reachable
    world the command leaves exactly one open panel, the current one;
    closing it empties [currentPanel], the next command then opens a
    different panel without revealing anything, and [deactivate] in its
    place would have disposed it. *)
Theorem disposal_resets_panel env settings events :
  let w := run env events (start settings) in
  (forall p,
     p ∈ openPanels w ->
     let closed := step env (PanelClosed p) w in
     let reopened := step env OpenChat closed in
     currentPanel closed = None
     /\ openPanels closed = []
     /\ currentPanel reopened = Some (nextPanel w)
     /\ openPanels reopened = [nextPanel w]
     /\ (forall q, q ∈ openPanels w -> q <> nextPanel w)
     /\ reveals reopened = reveals w)
  /\ (forall p,
        currentPanel w = Some p ->
        exec deactivate w = exec (panel_dispose p) w
        /\ currentPanel (exec deactivate w) = None
        /\ openPanels (exec deactivate w) = [])
  /\ (currentPanel w = None -> exec deactivate w = w)
  /\ (let opened := step env OpenChat w in
      exists p,
        currentPanel opened = Some p
        /\ openPanels opened = [p]
        /\ (let closed := step env (PanelClosed p) opened in
            let reopened := step env OpenChat closed in
            currentPanel closed = None
            /\ openPanels closed = []
            /\ exists q,
                 currentPanel reopened = Some q
                 /\ openPanels reopened = [q]
                 /\ q <> p
                 /\ q = nextPanel opened
                 /\ reveals reopened = reveals opened)
        /\ currentPanel (exec deactivate opened) = None
        /\ openPanels (exec deactivate opened) = []).
Proof.
  intros w.
  assert (panel_invariant w) as Hinv
    by apply panel_invariant_run, panel_invariant_start.
  split; [|split; [|split]].
  - intros p Hp.
    assert (currentPanel w = Some p) as Hcur.
    { destruct Hinv as [Hopen _]. rewrite Hopen in Hp.
      destruct (currentPanel w) as [q|]; cbn in Hp.
      - by apply list_elem_of_singleton in Hp as ->.
      - by apply elem_of_nil in Hp. }
    exact (reset_after_disposal env p w Hinv Hcur).
  - intros p Hcur. rewrite (deactivate_panel p w Hcur).
    destruct (panel_dispose_current p w Hinv Hcur) as (Hc & Ho & _). done.
  - apply deactivate_no_panel.
  - intros opened.
    assert (panel_invariant opened) as Hinv'
      by (by apply panel_invariant_step).
    destruct (openChat_current env w Hinv) as (p & Hcur & Hopen).
    fold opened in Hcur, Hopen. exists p.
    split; [done |]. split; [done |].
    destruct (reset_after_disposal env p opened Hinv' Hcur)
      as (Hc & Ho & Hc' & Ho' & Hfresh & Hr).
    split; [|split].
    + split; [done |]. split; [done |]. exists (nextPanel opened).
      repeat split; try done.
      intros Heq. apply (Hfresh p); [|done].
      rewrite Hopen. apply list_elem_of_here.
    + rewrite (deactivate_panel p opened Hcur).
      by destruct (panel_dispose_current p opened Hinv' Hcur) as (? & _).
    + rewrite (deactivate_panel p opened Hcur).
      by destruct (panel_dispose_current p opened Hinv' Hcur) as (_ & ? & _).
Qed.

(** ** The logs over a whole run *)

Lemma panel_dispose_same_logs p w : same_logs w (exec (panel_dispose p) w).
Proof.
  unfold exec, panel_dispose. by destruct (bool_decide (p ∈ openPanels w)).
Qed.

Lemma openChat_same_logs w : same_logs w (exec openChat w).
Proof.
  unfold exec, openChat, mbind, M_bind, get_currentPanel.
  by destruct (currentPanel w).
Qed.

Lemma deactivate_same_logs w : same_logs w (exec deactivate w).
Proof.
  unfold exec, deactivate, mbind, M_bind, get_currentPanel.
  destruct (currentPanel w) as [p|]; [|done]. apply panel_dispose_same_logs.
Qed.

Section Runs.
Variable env : Environment.
Variable R : World -> World -> Prop.
Hypothesis R_refl : forall w, R w w.
Hypothesis R_trans : forall w1 w2 w3, R w1 w2 -> R w2 w3 -> R w1 w3.
Hypothesis R_same_logs : forall w w', same_logs w w' -> R w w'.
Hypothesis R_message :
  forall message, respects R (onDidReceiveMessage env message).

Lemma step_related e w : R w (step env e w).
Proof.
  destruct e as [|p|p message|]; unfold step; cbn [handle].
  - apply R_same_logs, openChat_same_logs.
  - apply R_same_logs, panel_dispose_same_logs.
  - unfold exec. destruct (bool_decide (p ∈ openPanels w)); [|apply R_refl].
    apply R_message.
  - apply R_same_logs, deactivate_same_logs.
Qed.

Lemma run_related events w : R w (run env events w).
Proof.
  revert w. induction events as [|e rest IH]; intros w; [apply R_refl |].
  cbn. eapply R_trans; [apply step_related | apply IH].
Qed.
End Runs.

(** *** HTTP requests *)

Lemma requests_extended_refl w : requests_extended w w.
Proof. exists []. by rewrite app_nil_r. Qed.

Lemma requests_extended_trans w1 w2 w3 :
  requests_extended w1 w2 -> requests_extended w2 w3 ->
  requests_extended w1 w3.
Proof.
  intros (n1 & H1 & F1) (n2 & H2 & F2). exists (n1 ++ n2). split.
  - by rewrite H2, H1, app_assoc.
  - by apply Forall_app.
Qed.

Lemma axios_request_extends env r :
  is_endpoint r -> respects requests_extended (axios_request env r).
Proof.
  intros Hr w. exists [r]. split; [|constructor; [exact Hr | constructor]].
  unfold axios_request.
  destruct (network env _) as [resp|]; [destruct (validateStatus _)|]; done.
Qed.

Lemma onDidReceiveMessage_requests env message :
  respects requests_extended (onDidReceiveMessage env message).
Proof.
  apply respects_onDidReceiveMessage.
  - apply requests_extended_refl.
  - apply requests_extended_trans.
  - intros p msg w. exists []. by rewrite app_nil_r.
  - intros apiKey. apply axios_request_extends. by left.
  - intros prompt apiKey. apply axios_request_extends. by right.
  - intros v w. exists []. rewrite app_nil_r. unfold configuration_update.
    by destruct (settings_accept env _ _).
Qed.

(** C5: two-endpoint restriction.  Whatever sequence of commands, panel
    closings and webview messages the extension handles, every HTTP request
    it issues is either a GET to https://api.qbraid.com/api/chat/models or a
    POST to https://api.qbraid.com/api/chat. *)
Theorem only_two_endpoints env settings events :
  Forall is_endpoint (requests (run env events (start settings))).
Proof.
  destruct (run_related env requests_extended requests_extended_refl
              requests_extended_trans) with (events := events)
              (w := start settings) as (new & -> & Hnew); [| |done].
  - intros w w' (_ & _ & _ & Hreq). exists []. by rewrite app_nil_r.
  - apply onDidReceiveMessage_requests.
Qed.

(** *** The settings store *)

Lemma same_settings_extended w w' :
  same_settings w w' -> settings_extended w w'.
Proof.
  intros [Hc Hw]. split; [|by rewrite Hc].
  exists []. by rewrite app_nil_r.
Qed.

Lemma settings_extended_trans w1 w2 w3 :
  settings_extended w1 w2 -> settings_extended w2 w3 ->
  settings_extended w1 w3.
Proof.
  intros [(n1 & H1 & F1) K1] [(n2 & H2 & F2) K2]. split.
  - exists (n1 ++ n2). split; [by rewrite H2, H1, app_assoc |].
    by apply Forall_app.
  - intros key Hkey. by rewrite K2, K1.
Qed.

Lemma axios_request_same_settings env r :
  respects same_settings (axios_request env r).
Proof.
  intros w. unfold axios_request.
  destruct (network env _) as [resp|]; [destruct (validateStatus _)|]; done.
Qed.

Lemma handleChatRequest_same_settings env prompt panel :
  respects same_settings (handleChatRequest env prompt panel).
Proof.
  apply respects_handleChatRequest.
  - by intros w.
  - intros w1 w2 w3 [] []. split; congruence.
  - by intros p msg w.
  - intros apiKey. apply axios_request_same_settings.
Qed.

Lemma onDidReceiveMessage_settings env message :
  respects settings_extended (onDidReceiveMessage env message).
Proof.
  apply respects_onDidReceiveMessage.
  - intros w. by apply same_settings_extended.
  - apply settings_extended_trans.
  - intros p msg w. by apply same_settings_extended.
  - intros apiKey w. apply same_settings_extended, axios_request_same_settings.
  - intros prompt apiKey w.
    apply same_settings_extended, axios_request_same_settings.
  - intros v w. unfold configuration_update.
    destruct (settings_accept env _ _); cbn.
    + split.
      * exists [(apiKey_setting, v)]. split; [done |].
        constructor; [done | constructor].
      * intros key Hkey. by apply lookup_insert_ne.
    + split; [|done].
      exists [(apiKey_setting, v)]. split; [done |].
      constructor; [done | constructor].
Qed.

Lemma is_literal_true v lit : is_literal v lit = true -> v = JString (js lit).
Proof.
  destruct v; cbn; try done. unfold jsstring_eqb.
  by intros ->%bool_decide_eq_true.
Qed.

(** A message that is not a [validateApiKey] message leaves the settings
    alone. *)
Lemma onDidReceiveMessage_writes env message w :
  ~ same_settings w (exec (onDidReceiveMessage env message) w) ->
  get_field message (js "command") = Some (JString (js "validateApiKey")).
Proof.
  unfold exec, onDidReceiveMessage, mbind, M_bind, get_currentPanel.
  destruct (currentPanel w) as [p|]; cbn [is_panel negb];
    [|by intros []].
  destruct (get_field message (js "command")) as [command|];
    cbn [or_type_error mret M_ret throw]; [|by intros []].
  destruct (is_literal command "validateApiKey") eqn:Hvalidate.
  { intros _. by apply is_literal_true in Hvalidate as ->. }
  destruct (is_literal command "sendChat"); [|by intros []].
  destruct (get_field message (js "prompt")) as [prompt|];
    cbn [or_type_error mret M_ret throw]; [|by intros []].
  intros []. apply handleChatRequest_same_settings.
Qed.

(** C6: single persisted value.  Over every run of the extension, each
    call of the settings' [update] is for the key [qbraidChat.apiKey], and
    every other key of the settings store keeps the value it had at
    activation; the settings are written only while a [validateApiKey]
    message is handled, and never by the chat handler. *)
Theorem only_apiKey_persisted env settings events :
  let w := run env events (start settings) in
  Forall is_apiKey_write (configWrites w)
  /\ (forall key,
        key <> js "qbraidChat.apiKey" -> config w !! key = settings !! key)
  /\ (forall e,
        ~ same_settings w (step env e w) ->
        exists p message,
          e = WebviewMessage p message
          /\ get_field message (js "command")
             = Some (JString (js "validateApiKey")))
  /\ (forall prompt panel,
        same_settings w (exec (handleChatRequest env prompt panel) w)).
Proof.
  intros w.
  destruct (run_related env settings_extended
              (fun w => same_settings_extended w w (conj eq_refl eq_refl))
              settings_extended_trans) with (events := events)
              (w := start settings) as [(new & Hnew & Hall) Hkeys].
  { intros w1 w2 (Hc & Hw & _). by apply same_settings_extended. }
  { apply onDidReceiveMessage_settings. }
  split; [|split; [|split]].
  - fold w in Hnew. by rewrite Hnew.
  - exact Hkeys.
  - intros e Hchanged. destruct e as [|p|p message|]; unfold step in Hchanged;
      cbn [handle] in Hchanged.
    + destruct Hchanged. destruct (openChat_same_logs w) as (?&?&_). done.
    + destruct Hchanged.
      destruct (panel_dispose_same_logs p w) as (?&?&_). done.
    + exists p, message. split; [done |].
      apply (onDidReceiveMessage_writes env message w).
      unfold exec in *.
      destruct (bool_decide (p ∈ openPanels w)); [done |].
      by destruct Hchanged.
    + destruct Hchanged. destruct (deactivate_same_logs w) as (?&?&_). done.
  - intros prompt panel. apply handleChatRequest_same_settings.
Qed.

(** ** The webview script *)

Lemma in_class_spec c :
  View.in_class c = true <-> is_lowercase_letter c \/ is_digit c.
Proof.
  unfold View.in_class, is_lowercase_letter, is_digit. cbn.
  rewrite orb_true_iff, !andb_true_iff, !N.leb_le. tauto.
Qed.

Lemma class_star_end_spec s :
  View.class_star_end s = true
  <-> Forall (fun c => is_lowercase_letter c \/ is_digit c) s.
Proof.
  induction s as [|c r IH]; cbn.
  - split; [constructor | done].
  - rewrite andb_true_iff, in_class_spec, IH. split.
    + intros [Hc Hr]. by constructor.
    + intros H. inversion H; subst. done.
Qed.

Lemma regex_test_spec s :
  View.regex_test s = true
  <-> s <> [] /\ Forall (fun c => is_lowercase_letter c \/ is_digit c) s.
Proof.
  destruct s as [|c r]; [cbn; split; [done | by intros []] |].
  change (View.regex_test (c :: r)) with (View.class_star_end (c :: r)).
  rewrite class_star_end_spec. split; [by intros H | by intros [_ H]].
Qed.

Lemma key_gate_spec key :
  (N.of_nat (length key) =? 30) && View.regex_test key = true
  <-> well_formed_key key.
Proof.
  rewrite andb_true_iff, N.eqb_eq, regex_test_spec. unfold well_formed_key.
  split.
  - intros [Hlen [_ Hall]]. split; [lia | done].
  - intros [Hlen Hall]. split; [lia |]. split; [|done].
    intros ->. cbn in Hlen. lia.
Qed.

(** C2: the API key format gate.  On an input event the webview posts a
    [validateApiKey] message (carrying the trimmed input) to the host if and
    only if the trimmed input has exactly 30 characters, all of them
    lowercase letters a-z or digits 0-9; for any other input the status
    line shows the format error, with class [error], and nothing is
    posted. *)
Theorem key_format_gate (value : jsstring) (v : View.View) :
  let key := trim value in
  let v' := View.apiKey_input value v in
  (View.sent v' = View.sent v ++ [View.validateApiKey_message key]
   <-> well_formed_key key)
  /\ (~ well_formed_key key ->
      View.sent v' = View.sent v
      /\ View.apiKeyStatus_textContent v'
         = js "API key must be 30 characters long and contain only lowercase letters and numbers"
      /\ View.apiKeyStatus_className v' = js "error").
Proof.
  intros key v'. subst v'. unfold View.apiKey_input. fold key.
  destruct ((N.of_nat (length key) =? 30) && View.regex_test key) eqn:Hgate.
  - apply key_gate_spec in Hgate. cbn. split; [done |]. by intros [].
  - assert (~ well_formed_key key) as Hbad.
    { intros H%key_gate_spec. congruence. }
    cbn. split; [|done]. split; [|done].
    intros Heq. apply (f_equal length) in Heq.
    rewrite length_app in Heq. cbn in Heq. lia.
Qed.

(** *** The dropdown *)

Lemma step_forget_model e v :
  forget_model (View.step e v) = forget_model (View.step e (forget_model v)).
Proof.
  destruct e; cbn [View.step]; try reflexivity.
  - unfold View.apiKey_input. by destruct (_ && _).
  - unfold View.sendPrompt. cbn. by destruct (trim _).
  - unfold View.promptInput_keypress, View.sendPrompt. cbn.
    destruct (jsstring_eqb _ _); [|done]. by destruct (trim _).
  - unfold View.window_message.
    destruct (get_field message (js "command")) as [command|]; [|done].
    destruct (is_literal command "apiKeyValidated").
    { by destruct (get_field message (js "models")) as [[]|]. }
    destruct (is_literal command "chatResponse"); [done |].
    by destruct (is_literal command "error").
Qed.

Lemma run_forget_model events v1 v2 :
  forget_model v1 = forget_model v2 ->
  forget_model (View.run events v1)
  = forget_model
      (View.run (List.filter (fun e => negb (View.is_model_choice e)) events)
                v2).
Proof.
  revert v1 v2. induction events as [|e rest IH]; intros v1 v2 Hv; [done |].
  cbn [View.run List.filter]. destruct (View.is_model_choice e) eqn:He.
  - cbn [negb]. apply IH. destruct e; done.
  - cbn [negb View.run]. apply IH.
    by rewrite step_forget_model, Hv, <- step_forget_model.
Qed.

Lemma step_sent e v :
  exists new,
    View.sent (View.step e v) = View.sent v ++ new
    /\ Forall is_webview_message new.
Proof.
  assert (exists new : list JSValue,
            View.sent v = View.sent v ++ new
            /\ Forall is_webview_message new) as Hnone
    by (exists []; by rewrite app_nil_r).
  assert (forall w, exists new : list JSValue,
            View.sent (View.sendPrompt w) = View.sent w ++ new
            /\ Forall is_webview_message new) as Hsend.
  { intros w. unfold View.sendPrompt. cbn.
    destruct (trim (View.promptInput_value w)) as [|c r] eqn:Htrim; cbn.
    - exists []. by rewrite app_nil_r.
    - eexists [_]. split; [done |].
      constructor; [|constructor]. eexists. by right. }
  destruct e; cbn [View.step]; try done.
  - unfold View.apiKey_input. destruct (_ && _); cbn; [|done].
    eexists [_]. split; [done |].
    constructor; [|constructor]. eexists. by left.
  - unfold View.promptInput_keypress. by destruct (jsstring_eqb _ _).
  - unfold View.window_message.
    destruct (get_field message (js "command")) as [command|]; [|done].
    destruct (is_literal command "apiKeyValidated").
    { by destruct (get_field message (js "models")) as [[]|]. }
    destruct (is_literal command "chatResponse"); [done |].
    by destruct (is_literal command "error").
Qed.

Lemma run_sent events v :
  exists new,
    View.sent (View.run events v) = View.sent v ++ new
    /\ Forall is_webview_message new.
Proof.
  revert v. induction events as [|e rest IH]; intros v; cbn.
  - exists []. by rewrite app_nil_r.
  - destruct (step_sent e v) as (n1 & H1 & F1).
    destruct (IH (View.step e v)) as (n2 & H2 & F2).
    exists (n1 ++ n2). split; [by rewrite H2, H1, app_assoc |].
    by apply Forall_app.
Qed.

Lemma handleChatRequest_body env prompt panel :
  respects (chat_requests_added prompt) (handleChatRequest env prompt panel).
Proof.
  assert (forall w, chat_requests_added prompt w w) as Hrefl
    by (intros w; exists []; by rewrite app_nil_r).
  apply respects_handleChatRequest;
    [done | | intros p msg w; exists []; by rewrite app_nil_r |].
  - intros w1 w2 w3 (n1 & H1 & F1) (n2 & H2 & F2). exists (n1 ++ n2).
    split; [by rewrite H2, H1, app_assoc | by apply Forall_app].
  - intros apiKey w. eexists [_]. split.
    + unfold axios_request.
      destruct (network env _) as [r|]; [destruct (validateStatus _)|]; done.
    + constructor; [done | constructor].
Qed.

(** C9: the selected model is never transmitted.  The messages the webview
    posts to the host are the same with and without the user's choices in
    the model dropdown; every message it posts has a [command] and one
    string field, the API key or the prompt, and nothing else; and every
    request the chat handler issues is a POST to the chat endpoint whose
    body is the object holding the prompt and nothing else. *)
Theorem model_choice_not_transmitted :
  (forall events v,
     View.sent (View.run events v)
     = View.sent
         (View.run
            (List.filter (fun e => negb (View.is_model_choice e)) events) v))
  /\ (forall events, Forall is_webview_message
                       (View.sent (View.run events View.loaded)))
  /\ (forall env prompt panel w,
        exists new,
          requests (exec (handleChatRequest env prompt panel) w)
          = requests w ++ new
          /\ Forall (carries_only_prompt prompt) new).
Proof.
  split; [|split].
  - intros events v.
    pose proof (run_forget_model events v v eq_refl) as H.
    by apply (f_equal View.sent) in H.
  - intros events. destruct (run_sent events View.loaded) as (new & -> & H).
    done.
  - intros env prompt panel w. apply handleChatRequest_body.
Qed.

(** ** Concrete runs *)

Lemma chat_needs_key_witness :
  let w := run service_down [OpenChat] (start ∅) in
  let w' :=
    exec (onDidReceiveMessage service_down (View.sendChat_message (js "hello")))
         w in
  posted w' = posted w ++ [(0%nat, error_message key_not_found)]
  /\ requests w' = requests w.
Proof.
  apply (chat_needs_key service_down (js "hello") 0%nat).
  - reflexivity.
  - left. vm_compute. reflexivity.
Defined.

Lemma prompt_forwarded_witness :
  let env := service 200 hello_body in
  let w := run env [OpenChat] (start {[apiKey_setting := JString key30]}) in
  let w' :=
    exec (onDidReceiveMessage env (View.sendChat_message (js "hello"))) w in
  requests w' = [chat_request (JString (js "hello")) (JString key30)]
  /\ posted w' = [(0%nat, chatResponse_message (JString (js "Hello!")))].
Proof.
  intros env w w'.
  destruct (prompt_forwarded env (js "hello") key30 0%nat w) as [Hreq Hpost].
  - reflexivity.
  - vm_compute. reflexivity.
  - discriminate.
  - split; [exact Hreq |].
    apply (Hpost (mkResponse 200 hello_body)); reflexivity.
Defined.

(** With a [null] body on a status-200 answer no [chatResponse] message is
    posted: reading [content] raises, and the [catch] block posts an error
    message instead. *)
Lemma prompt_forwarded_null_body :
  let env := service 200 JNull in
  let w := run env [OpenChat] (start {[apiKey_setting := JString key30]}) in
  let w' :=
    exec (onDidReceiveMessage env (View.sendChat_message (js "hello"))) w in
  currentPanel w = Some 0%nat
  /\ config w !! apiKey_setting = Some (JString key30)
  /\ network env (requests w') = Responds (mkResponse 200 JNull)
  /\ posted w' = [(0%nat, error_message chat_failed)]
  /\ ~ exists content,
         posted w' = posted w ++ [(0%nat, chatResponse_message content)].
Proof.
  intros env w w'. repeat split; try (vm_compute; reflexivity).
  intros [content H]. vm_compute in H. discriminate H.
Qed.

Lemma models_listed_in_order_witness :
  let env := service 200 (JArray two_models) in
  let w := run env [OpenChat] (start ∅) in
  let w' :=
    exec (onDidReceiveMessage env (View.validateApiKey_message key30)) w in
  exists new,
    posted w' = posted w ++ new
    /\ (forall q models,
          In (q, apiKeyValidated_message models) new ->
          models = List.map model_field two_models)
    /\ (Forall (fun elem => elem <> JNull /\ elem <> JUndefined) two_models ->
        exists rest,
          new = (0%nat,
                 apiKeyValidated_message (List.map model_field two_models))
                  :: rest).
Proof.
  apply (models_listed_in_order (service 200 (JArray two_models)) key30 0%nat
           _ (mkResponse 200 (JArray two_models)) two_models);
    reflexivity.
Defined.

Lemma validation_failure_keeps_key_witness :
  let w := run service_down [OpenChat] (start ∅) in
  let w' :=
    exec (onDidReceiveMessage service_down (View.validateApiKey_message key30))
         w in
  config w' = config w
  /\ configWrites w' = configWrites w
  /\ posted w' = posted w ++ [(0%nat, error_message validation_failed)].
Proof.
  intros w w'.
  destruct (validation_failure_keeps_key service_down key30 0%nat w)
    as [Hthrown _]; [reflexivity |].
  apply (Hthrown (AxiosError None)). reflexivity.
Defined.

(** An error response whose body is the JSON value [false]: the body is
    there, yet the message shown is the fallback text. *)
Lemma validation_error_body_false :
  let env := service 500 (JBool false) in
  let w := run env [OpenChat] (start ∅) in
  let w' :=
    exec (onDidReceiveMessage env (View.validateApiKey_message key30)) w in
  fst (axios_get env models_url [(js "api-key", JString key30)] w)
  = Thrown (AxiosError (Some (mkResponse 500 (JBool false))))
  /\ posted w' = [(0%nat, error_message validation_failed)]
  /\ posted w' <> posted w ++ [(0%nat, error_message (JBool false))].
Proof.
  intros env w w'. repeat split; try (vm_compute; reflexivity).
  intros H. vm_compute in H. discriminate H.
Qed.

Lemma disposal_resets_panel_witness :
  let w := run service_down [OpenChat] (start ∅) in
  let closed := step service_down (PanelClosed 0%nat) w in
  let reopened := step service_down OpenChat closed in
  0%nat ∈ openPanels w
  /\ currentPanel closed = None
  /\ openPanels closed = []
  /\ currentPanel reopened = Some 1%nat
  /\ openPanels reopened = [1%nat]
  /\ reveals reopened = reveals w.
Proof.
  intros w closed reopened.
  assert (0%nat ∈ openPanels w) as Hopen by apply list_elem_of_here.
  destruct (disposal_resets_panel service_down ∅ [OpenChat])
    as (Hclose & _).
  destruct (Hclose 0%nat Hopen) as (Hc & Ho & Hc' & Ho' & _ & Hr).
  repeat split; assumption.
Defined.

(** * Further properties *)

(** ** Key validation, case by case *)

Lemma readable_get_field elems :
  Forall readable elems ->
  map_elems (fun model => get_field model (js "model")) elems
  = Some (List.map model_field elems).
Proof.
  intros Hall. apply map_elems_total.
  eapply Forall_impl; [exact Hall |]. intros elem [Hnull Hundef]; cbn.
  destruct (get_field elem (js "model")) eqn:Hget; [by eexists |].
  apply get_field_None in Hget as [-> | ->]; done.
Qed.

Lemma handleApiKeyValidation_accepted env apiKey p w resp elems :
  network env (requests w ++ [models_request apiKey]) = Responds resp ->
  status resp = 200%Z ->
  data resp = JArray elems ->
  Forall readable elems ->
  let w' := exec (handleApiKeyValidation env apiKey (Some p)) w in
  let validated :=
    (p, apiKeyValidated_message (List.map model_field elems)) in
  configWrites w' = configWrites w ++ [(apiKey_setting, apiKey)]
  /\ if settings_accept env apiKey_setting apiKey then
       posted w' = posted w ++ [validated]
       /\ config w' = <[apiKey_setting := apiKey]> (config w)
     else
       posted w' = posted w ++ [validated; (p, error_message validation_failed)]
       /\ config w' = config w.
Proof.
  intros Hnet Hst Hdata Hall. unfold_handler. unfold models_request in Hnet.
  rewrite Hnet. unfold validateStatus. rewrite Hst. cbn. rewrite Hst, Hdata.
  cbn [array_map]. rewrite (readable_get_field elems Hall). cbn.
  destruct (settings_accept env apiKey_setting apiKey); cbn; [done |].
  by rewrite <- app_assoc.
Qed.

(** X1: a key the service accepts is handed to the settings.  When the
    models endpoint answers 200 with an array of readable elements and the
    settings store takes the write, handling a [validateApiKey] message
    posts exactly one [apiKeyValidated] message with the models of the
    answer, issues exactly the GET request carrying the key, and calls the
    settings' [update] exactly once, for [qbraidChat.apiKey] with that
    key. *)
Theorem accepted_key_is_written env key (p : Panel) (w : World) resp elems :
  currentPanel w = Some p ->
  network env (requests w ++ [models_request (JString key)]) = Responds resp ->
  status resp = 200%Z ->
  data resp = JArray elems ->
  Forall readable elems ->
  settings_accept env (js "qbraidChat.apiKey") (JString key) = true ->
  let w' :=
    exec (onDidReceiveMessage env (View.validateApiKey_message key)) w in
  posted w'
  = posted w ++ [(p, apiKeyValidated_message (List.map model_field elems))]
  /\ requests w' = requests w ++ [models_request (JString key)]
  /\ configWrites w'
     = configWrites w ++ [(js "qbraidChat.apiKey", JString key)].
Proof.
  intros Hcur Hnet Hst Hdata Hall Haccept w'. subst w'. unfold exec.
  rewrite (onDidReceiveMessage_validateApiKey _ _ _ _ Hcur).
  pose proof (handleApiKeyValidation_accepted env _ p w resp elems
                Hnet Hst Hdata Hall) as [Hwrites Hrest].
  change apiKey_setting with (js "qbraidChat.apiKey") in *.
  rewrite Haccept in Hrest. destruct Hrest as [Hposted _].
  pose proof (handleApiKeyValidation_requests env (JString key) p w) as Hreq.
  unfold exec in *. done.
Qed.

(** X3: a 2xx answer other than 200 to the key validation is dropped
    without a trace: no message reaches the webview and the settings are
    not written. *)
Theorem validation_ignores_other_2xx env key (p : Panel) (w : World) resp :
  currentPanel w = Some p ->
  network env (requests w ++ [models_request (JString key)]) = Responds resp ->
  (200 < status resp < 300)%Z ->
  let w' :=
    exec (onDidReceiveMessage env (View.validateApiKey_message key)) w in
  posted w' = posted w
  /\ config w' = config w
  /\ configWrites w' = configWrites w.
Proof.
  intros Hcur Hnet Hst. unfold exec.
  rewrite (onDidReceiveMessage_validateApiKey _ _ _ _ Hcur).
  unfold_handler. unfold models_request in Hnet. rewrite Hnet.
  unfold validateStatus.
  replace ((200 <=? status resp) && (status resp <? 300))%Z with true
    by (symmetry; apply andb_true_iff; split; lia).
  cbn. replace (status resp =? 200)%Z with false by (symmetry; lia).
  done.
Qed.

Lemma map_elems_None f elems :
  Exists (fun x => f x = None) elems -> map_elems f elems = None.
Proof.
  induction elems as [|x rest IH]; intros Hex; [by inversion Hex |].
  cbn. destruct (f x) eqn:Hx; [|done].
  inversion Hex as [? ? Hhead | ? ? Htail]; subst; [congruence |].
  by rewrite (IH Htail).
Qed.

(** X4: a 200 answer to the key validation whose body is not an array, or
    is an array holding [null] or [undefined], is handled like a failure:
    the webview gets exactly one error message with the text 'Failed to
    validate API key' and the settings are not written. *)
Theorem validation_rejects_malformed_body env key (p : Panel) (w : World) resp :
  currentPanel w = Some p ->
  network env (requests w ++ [models_request (JString key)]) = Responds resp ->
  status resp = 200%Z ->
  (forall elems, data resp <> JArray elems)
  \/ (exists elems,
        data resp = JArray elems
        /\ Exists (fun elem => elem = JNull \/ elem = JUndefined) elems) ->
  let w' :=
    exec (onDidReceiveMessage env (View.validateApiKey_message key)) w in
  posted w'
  = posted w ++ [(p, error_message (JString (js "Failed to validate API key")))]
  /\ config w' = config w
  /\ configWrites w' = configWrites w.
Proof.
  intros Hcur Hnet Hst Hbody. unfold exec.
  rewrite (onDidReceiveMessage_validateApiKey _ _ _ _ Hcur).
  assert (array_map (fun model => get_field model (js "model")) (data resp)
          = None) as Hmap.
  { destruct Hbody as [Hnot | (elems & -> & Hex)].
    - destruct (data resp) as [| | | | |elems|]; try done.
      by destruct (Hnot elems).
    - cbn. apply map_elems_None. eapply Exists_impl; [exact Hex |].
      intros elem Helem. cbn. by apply get_field_None; destruct Helem; auto. }
  unfold_handler. unfold models_request in Hnet. rewrite Hnet.
  unfold validateStatus. rewrite Hst. cbn. rewrite Hst, Hmap. done.
Qed.

(** X5: when the settings store refuses the write, the webview is first
    told the key is valid and then gets the error message 'Failed to
    validate API key'; the stored settings stay as they were. *)
Theorem refused_write_is_reported env key (p : Panel) (w : World) resp elems :
  currentPanel w = Some p ->
  network env (requests w ++ [models_request (JString key)]) = Responds resp ->
  status resp = 200%Z ->
  data resp = JArray elems ->
  Forall readable elems ->
  settings_accept env (js "qbraidChat.apiKey") (JString key) = false ->
  let w' :=
    exec (onDidReceiveMessage env (View.validateApiKey_message key)) w in
  posted w'
  = posted w
    ++ [(p, apiKeyValidated_message (List.map model_field elems));
        (p, error_message (JString (js "Failed to validate API key")))]
  /\ config w' = config w.
Proof.
  intros Hcur Hnet Hst Hdata Hall Hrefuse. unfold exec.
  rewrite (onDidReceiveMessage_validateApiKey _ _ _ _ Hcur).
  pose proof (handleApiKeyValidation_accepted env _ p w resp elems
                Hnet Hst Hdata Hall) as [_ Hrest].
  change apiKey_setting with (js "qbraidChat.apiKey") in *.
  by rewrite Hrefuse in Hrest.
Qed.

(** ** The chat request, case by case *)

(** X6: when the POST to the chat endpoint throws (no answer, or a status
    outside 2xx), the webview gets exactly one error message, whose text is
    the body of the error response when that is truthy and 'Failed to get
    chat response' otherwise; the request did go out and the settings are
    untouched. *)
Theorem chat_failure_is_reported env prompt key (p : Panel) (w : World) error :
  currentPanel w = Some p ->
  config w !! js "qbraidChat.apiKey" = Some (JString key) ->
  key <> [] ->
  fst (axios_post env chat_url (JObject [(js "prompt", JString prompt)])
         [(js "api-key", JString key);
          (js "Content-Type", JString (js "application/json"))] w)
  = Thrown error ->
  let w' := exec (onDidReceiveMessage env (View.sendChat_message prompt)) w in
  posted w'
  = posted w
    ++ [(p, error_message
              (if truthy (error_response_data error)
               then error_response_data error
               else JString (js "Failed to get chat response")))]
  /\ requests w'
     = requests w ++ [chat_request (JString prompt) (JString key)]
  /\ config w' = config w
  /\ configWrites w' = configWrites w.
Proof.
  intros Hcur Hcfg Hkey. unfold exec.
  rewrite (onDidReceiveMessage_sendChat _ _ _ _ Hcur).
  change (js "qbraidChat.apiKey") with apiKey_setting in Hcfg.
  unfold_handler. rewrite Hcfg. cbn [from_option id].
  replace (truthy (JString key)) with true by (by destruct key).
  cbn [negb]. unfold chat_request.
  destruct (network env _) as [resp|]; cbn.
  - destruct (validateStatus (status resp)); cbn; [done |].
    by intros [= <-].
  - by intros [= <-].
Qed.

(** X7: a 2xx answer other than 200 to the chat request is dropped: the
    webview gets neither a response nor an error. *)
Theorem chat_ignores_other_2xx env prompt key (p : Panel) (w : World) resp :
  currentPanel w = Some p ->
  config w !! js "qbraidChat.apiKey" = Some (JString key) ->
  key <> [] ->
  network env (requests w ++ [chat_request (JString prompt) (JString key)])
  = Responds resp ->
  (200 < status resp < 300)%Z ->
  let w' := exec (onDidReceiveMessage env (View.sendChat_message prompt)) w in
  posted w' = posted w.
Proof.
  intros Hcur Hcfg Hkey Hnet Hst. unfold exec.
  rewrite (onDidReceiveMessage_sendChat _ _ _ _ Hcur).
  change (js "qbraidChat.apiKey") with apiKey_setting in Hcfg.
  unfold_handler. rewrite Hcfg. cbn [from_option id].
  replace (truthy (JString key)) with true by (by destruct key).
  cbn [negb]. unfold chat_request in Hnet. rewrite Hnet.
  unfold validateStatus.
  replace ((200 <=? status resp) && (status resp <? 300))%Z with true
    by (symmetry; apply andb_true_iff; split; lia).
  cbn. replace (status resp =? 200)%Z with false by (symmetry; lia).
  done.
Qed.

(** ** Every way a handler can end *)

Lemma is_host_message_error text : is_host_message (error_message text).
Proof. right; right. by eexists. Qed.

Lemma is_host_message_chatResponse content :
  is_host_message (chatResponse_message content).
Proof. right; left. by eexists. Qed.

Lemma is_host_message_apiKeyValidated models :
  is_host_message (apiKeyValidated_message models).
Proof. left. by eexists. Qed.

Lemma handleChatRequest_cases env prompt p w :
  let w' := exec (handleChatRequest env prompt (Some p)) w in
  let apiKey := default JUndefined (config w !! apiKey_setting) in
  config w' = config w /\ configWrites w' = configWrites w
  /\ ((truthy apiKey = false
       /\ requests w' = requests w
       /\ posted w' = posted w ++ [(p, error_message key_not_found)])
      \/ (truthy apiKey = true
          /\ requests w' = requests w ++ [chat_request prompt apiKey]
          /\ (posted w' = posted w
              \/ exists m,
                   is_host_message m /\ posted w' = posted w ++ [(p, m)]))).
Proof.
  unfold_handler. destruct (truthy (default _ _)) eqn:Htruthy; cbn [negb].
  - unfold chat_request.
    destruct (network env _) as [resp|]; cbn.
    + destruct (validateStatus (status resp)); cbn.
      * destruct (status resp =? 200)%Z; cbn.
        -- destruct (get_field (data resp) (js "content")); cbn;
             (split; [done |]; split; [done |]; right;
              split; [done |]; split; [done |]; right; eexists;
              split; [|done]);
             [apply is_host_message_chatResponse | apply is_host_message_error].
        -- split; [done |]. split; [done |]. right. by auto.
      * split; [done |]. split; [done |]. right.
        split; [done |]. split; [done |]. right. eexists.
        split; [apply is_host_message_error | done].
    + split; [done |]. split; [done |]. right.
      split; [done |]. split; [done |]. right. eexists.
      split; [apply is_host_message_error | done].
  - split; [done |]. split; [done |]. left. done.
Qed.

Lemma handleApiKeyValidation_cases env apiKey p w :
  let w' := exec (handleApiKeyValidation env apiKey (Some p)) w in
  requests w' = requests w ++ [models_request apiKey]
  /\ ((configWrites w' = configWrites w /\ config w' = config w
       /\ (posted w' = posted w
           \/ exists text,
                posted w' = posted w ++ [(p, error_message text)]))
      \/ (configWrites w' = configWrites w ++ [(apiKey_setting, apiKey)]
          /\ exists models,
               (posted w'
                = posted w ++ [(p, apiKeyValidated_message models)]
                /\ config w' = <[apiKey_setting := apiKey]> (config w))
               \/ (posted w'
                   = posted w
                     ++ [(p, apiKeyValidated_message models);
                         (p, error_message validation_failed)]
                   /\ config w' = config w))).
Proof.
  unfold_handler. unfold models_request.
  destruct (network env _) as [resp|]; cbn.
  - destruct (validateStatus (status resp)); cbn.
    + destruct (status resp =? 200)%Z; cbn.
      * destruct (array_map _ (data resp)) as [models|]; cbn.
        -- destruct (settings_accept env apiKey_setting apiKey); cbn.
           ++ split; [done |]. right. split; [done |]. exists models.
              by left.
           ++ split; [done |]. right. split; [done |]. exists models.
              right. by rewrite <- app_assoc.
        -- split; [done |]. left. split; [done |]. split; [done |].
           right. by eexists.
      * split; [done |]. left. auto.
    + split; [done |]. left. split; [done |]. split; [done |].
      right. by eexists.
  - split; [done |]. left. split; [done |]. split; [done |].
    right. by eexists.
Qed.

Lemma is_literal_false v lit :
  is_literal v lit = false -> v <> JString (js lit).
Proof.
  intros Hlit ->. cbn in Hlit. unfold jsstring_eqb in Hlit.
  by rewrite bool_decide_eq_true_2 in Hlit.
Qed.

Lemma onDidReceiveMessage_cases env message w :
  let w' := exec (onDidReceiveMessage env message) w in
  (w' = w
   /\ (currentPanel w = None
       \/ forall s,
            get_field message (js "command") = Some (JString s) ->
            s <> js "validateApiKey" /\ s <> js "sendChat"))
  \/ (exists p apiKey,
        currentPanel w = Some p
        /\ get_field message (js "command")
           = Some (JString (js "validateApiKey"))
        /\ get_field message (js "apiKey") = Some apiKey
        /\ w' = exec (handleApiKeyValidation env apiKey (Some p)) w)
  \/ (exists p prompt,
        currentPanel w = Some p
        /\ get_field message (js "command") = Some (JString (js "sendChat"))
        /\ get_field message (js "prompt") = Some prompt
        /\ w' = exec (handleChatRequest env prompt (Some p)) w).
Proof.
  unfold exec, onDidReceiveMessage, mbind, M_bind, get_currentPanel.
  destruct (currentPanel w) as [p|] eqn:Hcur; cbn [is_panel negb];
    [|left; auto].
  destruct (get_field message (js "command")) as [command|] eqn:Hcommand;
    cbn [or_type_error mret M_ret throw]; [|left; split; [done |]; by right].
  destruct (is_literal command "validateApiKey") eqn:Hvalidate.
  { apply is_literal_true in Hvalidate as ->.
    destruct (get_field message (js "apiKey")) as [apiKey|] eqn:HapiKey;
      cbn [or_type_error mret M_ret throw].
    - right; left. exists p, apiKey. by rewrite Hcur.
    - apply get_field_None in HapiKey. apply eq_sym in Hcommand.
      destruct HapiKey as [-> | ->]; done. }
  destruct (is_literal command "sendChat") eqn:Hsend.
  { apply is_literal_true in Hsend as ->.
    destruct (get_field message (js "prompt")) as [prompt|] eqn:Hprompt;
      cbn [or_type_error mret M_ret throw].
    - right; right. exists p, prompt. by rewrite Hcur.
    - apply get_field_None in Hprompt. apply eq_sym in Hcommand.
      destruct Hprompt as [-> | ->]; done. }
  left. split; [done |]. right. intros s [= ->].
  apply is_literal_false in Hvalidate, Hsend. split; congruence.
Qed.

(** X8: handling one webview message costs at most one HTTP request and
    puts at most two messages on the way to the webview, all of them
    addressed to the panel that is current when the message arrives. *)
Theorem one_message_bounded_effects env message (w : World) :
  let w' := exec (onDidReceiveMessage env message) w in
  exists newP newR,
    posted w' = posted w ++ newP
    /\ requests w' = requests w ++ newR
    /\ (length newP <= 2)%nat
    /\ (length newR <= 1)%nat
    /\ Forall (fun pm => currentPanel w = Some (fst pm)) newP.
Proof.
  destruct (onDidReceiveMessage_cases env message w)
    as [[-> _] | [(p & apiKey & Hcur & _ & _ & ->)
                 | (p & prompt & Hcur & _ & _ & ->)]].
  - exists [], []. rewrite !app_nil_r. repeat split; cbn; try lia.
    constructor.
  - destruct (handleApiKeyValidation_cases env apiKey p w)
      as [Hreq [(_ & _ & [Hp | [text Hp]])
               | (_ & models & [[Hp _] | [Hp _]])]];
      eexists _, [_]; (split; [first [exact Hp | by rewrite app_nil_r] |]);
      (split; [exact Hreq |]); cbn; repeat split; try lia;
      repeat constructor; done.
  - destruct (handleChatRequest_cases env prompt p w)
      as (_ & _ & [(_ & Hreq & Hp) | (_ & Hreq & [Hp | (m & _ & Hp)])]).
    + eexists [_], []. rewrite app_nil_r.
      repeat split; cbn; try done; try lia; by repeat constructor.
    + exists [], [chat_request prompt
                    (default JUndefined (config w !! apiKey_setting))].
      rewrite app_nil_r. repeat split; cbn; try done; try lia; constructor.
    + eexists [_], [_].
      repeat split; cbn; try done; try lia; by repeat constructor.
Qed.

(** X9: a message whose [command] is neither 'validateApiKey' nor
    'sendChat' (or that has no [command] at all) is ignored: the world is
    left exactly as it was. *)
Theorem unknown_command_ignored env message (w : World) :
  (forall s,
     get_field message (js "command") = Some (JString s) ->
     s <> js "validateApiKey" /\ s <> js "sendChat") ->
  exec (onDidReceiveMessage env message) w = w.
Proof.
  intros Hunknown.
  destruct (onDidReceiveMessage_cases env message w)
    as [[-> _] | [(p & apiKey & _ & Hc & _) | (p & prompt & _ & Hc & _)]];
    [done | |]; destruct (Hunknown _ Hc); done.
Qed.

(** ** The three logs over a whole run *)

Lemma traffic_added_refl w : traffic_added w w.
Proof.
  exists [], [], []. rewrite !app_nil_r. repeat split; constructor.
Qed.


Lemma traffic_added_trans w1 w2 w3 :
  traffic_added w1 w2 -> traffic_added w2 w3 -> traffic_added w1 w3.
Proof.
  intros (p1 & r1 & c1 & Hp1 & Hr1 & Hc1 & Fp1 & Fr1 & Fc1)
         (p2 & r2 & c2 & Hp2 & Hr2 & Hc2 & Fp2 & Fr2 & Fc2).
  exists (p1 ++ p2), (r1 ++ r2), (c1 ++ c2).
  rewrite Hp2, Hp1, Hr2, Hr1, Hc2, Hc1, <- !app_assoc.
  repeat split; try by apply Forall_app.
  apply Forall_app. split.
  - eapply Forall_impl; [exact Fc1 |]. intros kv Hin. apply in_or_app. auto.
  - eapply Forall_impl; [exact Fc2 |]. intros kv Hin. apply in_or_app. auto.
Qed.

Lemma well_keyed_models_request apiKey : well_keyed (models_request apiKey).
Proof. exists apiKey. split; [by vm_compute | done]. Qed.

Lemma well_keyed_chat_request prompt apiKey :
  truthy apiKey = true -> well_keyed (chat_request prompt apiKey).
Proof. intros Htruthy. exists apiKey. split; [by vm_compute | done]. Qed.

Ltac forall_list :=
  repeat match goal with
         | |- Forall _ [] => constructor
         | |- Forall _ (_ :: _) => constructor
         end.

Lemma onDidReceiveMessage_traffic env message :
  respects traffic_added (onDidReceiveMessage env message).
Proof.
  intros w. change (traffic_added w (exec (onDidReceiveMessage env message) w)).
  destruct (onDidReceiveMessage_cases env message w)
    as [[-> _] | [(p & apiKey & _ & _ & _ & ->)
                 | (p & prompt & _ & _ & _ & ->)]].
  - apply traffic_added_refl.
  - pose proof (well_keyed_models_request apiKey) as Hkeyed.
    pose proof is_host_message_error as Herror.
    pose proof is_host_message_apiKeyValidated as Hvalidated.
    destruct (handleApiKeyValidation_cases env apiKey p w)
      as [Hreq [(Hw & _ & [Hp | [text Hp]])
               | (Hw & models & [[Hp _] | [Hp _]])]].
    + exists [], [models_request apiKey], []. rewrite !app_nil_r.
      repeat split; try done; forall_list; done.
    + eexists [_], [models_request apiKey], []. rewrite !app_nil_r.
      repeat split; try done; forall_list; cbn; done.
    + eexists [_], [models_request apiKey], [_].
      repeat split; try done; forall_list; cbn; auto.
    + eexists [_; _], [models_request apiKey], [_].
      repeat split; try done; forall_list; cbn; auto.
  - pose proof is_host_message_error as Herror.
    destruct (handleChatRequest_cases env prompt p w)
      as (_ & Hw & [(_ & Hreq & Hp)
                   | (Htruthy & Hreq & [Hp | (m & Hm & Hp)])]).
    + eexists [_], [], []. rewrite !app_nil_r.
      repeat split; try done; forall_list; cbn; done.
    + pose proof (well_keyed_chat_request prompt _ Htruthy) as Hkeyed.
      eexists [], [_], []. rewrite !app_nil_r.
      repeat split; try done; forall_list; done.
    + pose proof (well_keyed_chat_request prompt _ Htruthy) as Hkeyed.
      eexists [_], [_], []. rewrite !app_nil_r.
      repeat split; try done; forall_list; cbn; done.
Qed.

Lemma run_traffic env events w : traffic_added w (run env events w).
Proof.
  apply (run_related env traffic_added traffic_added_refl
           traffic_added_trans).
  - intros w1 w2 (_ & Hw & Hp & Hr). exists [], [], [].
    rewrite !app_nil_r. repeat split; try done; forall_list.
  - apply onDidReceiveMessage_traffic.
Qed.

(** X10: over every run, the host posts nothing to the webview but the
    three messages the webview script understands: [apiKeyValidated] with
    an array of models, [chatResponse] with a content, and [error] with a
    message. *)
Theorem only_three_host_messages env settings events :
  Forall (fun pm => is_host_message (snd pm))
         (posted (run env events (start settings))).
Proof.
  destruct (run_traffic env events (start settings))
    as (newP & _ & _ & -> & _ & _ & HP & _). done.
Qed.

(** X11: over every run, each HTTP request the extension issues has
    [api-key] as its first header, and no POST to the chat endpoint ever
    goes out with a missing or empty key. *)
Theorem no_request_without_key env settings events :
  Forall well_keyed (requests (run env events (start settings))).
Proof.
  destruct (run_traffic env events (start settings))
    as (_ & newR & _ & _ & -> & _ & _ & HR & _). done.
Qed.

(** X12: over every run, a value is written to the settings only if a GET
    request to the models endpoint carried that very value as its key. *)
Theorem only_submitted_keys_written env settings events :
  Forall (fun kv =>
            In (mkRequest GET (js "https://api.qbraid.com/api/chat/models")
                  JUndefined [(js "api-key", snd kv)])
               (requests (run env events (start settings))))
         (configWrites (run env events (start settings))).
Proof.
  destruct (run_traffic env events (start settings))
    as (_ & newR & newW & _ & -> & -> & _ & _ & HW). done.
Qed.

(** ** Panels *)

(** X13: the command always ends with exactly one open panel, the current
    one, whether it had to create it or only reveal it. *)
Theorem openChat_shows_a_panel env settings events :
  let w := step env OpenChat (run env events (start settings)) in
  exists p, currentPanel w = Some p /\ openPanels w = [p].
Proof.
  set (w0 := run env events (start settings)).
  assert (panel_invariant w0) as [Hopen _]
    by apply panel_invariant_run, panel_invariant_start.
  unfold step. cbn [handle].
  destruct (currentPanel w0) as [p|] eqn:Hcur.
  - destruct (openChat_panel p w0 Hcur) as (Hc & Ho & _).
    exists p. by rewrite Hc, Ho, Hopen.
  - destruct (openChat_no_panel w0 Hcur) as (Hc & Ho & _).
    exists (nextPanel w0). by rewrite Hc, Ho, Hopen.
Qed.

Lemma step_without_panel env e w :
  currentPanel w = None -> openPanels w = [] -> e <> OpenChat ->
  step env e w = w.
Proof.
  intros Hcur Hopen He. destruct e as [|p|p message|]; [done | | |];
    unfold step, exec; cbn [handle].
  - unfold panel_dispose. rewrite Hopen.
    by rewrite bool_decide_eq_false_2 by apply not_elem_of_nil.
  - rewrite Hopen.
    by rewrite bool_decide_eq_false_2 by apply not_elem_of_nil.
  - by apply deactivate_no_panel.
Qed.

(** X14: while there is no panel (before the first command, after the
    panel was closed, after [deactivate]) the extension is idle: whatever
    arrives, short of the command itself, changes nothing; in particular
    nothing is requested, posted or written. *)
Theorem idle_without_panel env settings before after :
  let w := run env before (start settings) in
  currentPanel w = None ->
  Forall (fun e => e <> OpenChat) after ->
  run env after w = w.
Proof.
  intros w Hcur Hafter.
  assert (openPanels w = []) as Hopen.
  { assert (panel_invariant w) as [Ho _]
      by apply panel_invariant_run, panel_invariant_start.
    by rewrite Ho, Hcur. }
  clearbody w. induction Hafter as [|e rest He _ IH]; [done |].
  cbn [run]. by rewrite (step_without_panel env e w Hcur Hopen He).
Qed.

(** X15: opening, revealing, closing and deactivating never touch the
    settings or the traffic logs; in particular a stored key survives
    closing the panel and opening a new one. *)
Theorem panel_events_keep_logs env events (w : World) :
  Forall (fun e => is_webview_event e = false) events ->
  let w' := run env events w in
  config w' = config w /\ configWrites w' = configWrites w
  /\ posted w' = posted w /\ requests w' = requests w.
Proof.
  intros Hevents. revert w.
  induction Hevents as [|e rest He _ IH]; intros w; [done |].
  cbn [run]. specialize (IH (step env e w)).
  assert (same_logs w (step env e w)) as (Hc & Hw & Hp & Hr).
  { destruct e as [|p|p message|]; [| |done|]; unfold step; cbn [handle].
    - apply openChat_same_logs.
    - apply panel_dispose_same_logs.
    - apply deactivate_same_logs. }
  cbn in IH. destruct IH as (Hc' & Hw' & Hp' & Hr').
  repeat split; congruence.
Qed.

(** ** More on trimming *)

Lemma trimStart_blank s : blank s -> trimStart s = [].
Proof. induction 1 as [|c r Hc _ IH]; [done |]. cbn. by rewrite Hc. Qed.

Lemma trimStart_app_blank pre s : blank pre -> trimStart (pre ++ s) = trimStart s.
Proof. induction 1 as [|c r Hc _ IH]; [done |]. cbn. by rewrite Hc. Qed.

Lemma trimStart_id s :
  (forall c, head s = Some c -> is_js_space c = false) -> trimStart s = s.
Proof. destruct s as [|c r]; [done |]. intros H. cbn. by rewrite (H c). Qed.

Lemma trim_blank s : blank s -> trim s = [].
Proof. intros H. unfold trim, trimEnd. by rewrite (trimStart_blank s H). Qed.

Lemma trim_nil_blank s : trim s = [] -> blank s.
Proof.
  intros Hnil. destruct (trim_spec s) as (pre & post & Hs & Hpre & Hpost & _).
  rewrite Hnil in Hs. rewrite Hs. by apply Forall_app.
Qed.

Lemma trim_trimmed s : trim s <> [] -> trimmed (trim s).
Proof.
  intros Hne. destruct (trim_spec s) as (_ & _ & _ & _ & _ & Hhead & Hlast).
  done.
Qed.

Lemma trim_app_blank pre s post :
  blank pre -> blank post -> trimmed s -> trim (pre ++ s ++ post) = s.
Proof.
  intros Hpre Hpost (Hne & Hhead & Hlast). unfold trim, trimEnd.
  rewrite (trimStart_app_blank pre _ Hpre).
  rewrite (trimStart_id (s ++ post)).
  2:{ intros c. destruct s; [done |]. apply Hhead. }
  rewrite rev_app_distr.
  rewrite trimStart_app_blank by (by apply Forall_rev).
  rewrite (trimStart_id (rev s)); [apply rev_involutive |].
  intros c. rewrite <- (rev_involutive s) in Hlast.
  rewrite last_rev in Hlast. apply Hlast.
Qed.

Lemma key_character_no_space c :
  is_lowercase_letter c \/ is_digit c -> is_js_space c = false.
Proof.
  unfold is_lowercase_letter, is_digit. cbn. intros Hc. unfold is_js_space.
  repeat match goal with
         | |- context [(c =? ?k)] =>
             rewrite (proj2 (N.eqb_neq c k)) by lia
         end.
  rewrite (proj2 (N.leb_gt 0x2000 c)) by lia. reflexivity.
Qed.

Lemma well_formed_key_trimmed key : well_formed_key key -> trimmed key.
Proof.
  intros [Hlen Hall]. split; [by intros -> |]. split; intros c Hc.
  - apply head_Some in Hc as [r ->]. apply key_character_no_space.
    by inversion Hall.
  - apply last_Some in Hc as [r ->]. apply key_character_no_space.
    apply Forall_app in Hall as [_ Hc]. by inversion Hc.
Qed.

(** ** More on the webview script *)

Lemma step_keeps_sections e v :
  ~ announces_models e ->
  View.chatSection_display (View.step e v) = View.chatSection_display v
  /\ View.apiKeySection_display (View.step e v) = View.apiKeySection_display v
  /\ View.modelSelect_options (View.step e v) = View.modelSelect_options v.
Proof.
  intros Hquiet. destruct e; cbn [View.step]; try done.
  - unfold View.apiKey_input. by destruct (_ && _).
  - unfold View.sendPrompt. by destruct (negb _).
  - unfold View.promptInput_keypress, View.sendPrompt.
    destruct (jsstring_eqb _ _); [|done]. by destruct (negb _).
  - unfold View.window_message.
    destruct (get_field message (js "command")) as [command|] eqn:Hcommand;
      [|done].
    destruct (is_literal command "apiKeyValidated") eqn:Hlit.
    { destruct Hquiet. exists message. split; [done |].
      by apply is_literal_true in Hlit as ->. }
    destruct (is_literal command "chatResponse"); [done |].
    by destruct (is_literal command "error").
Qed.

(** X16: the script shows or hides the two sections, and refills the
    dropdown, only when the host announces a valid key: whatever the user
    does in the page and whatever other message arrives, the display of
    the key section and of the chat section and the content of the
    dropdown stay as they were. *)
Theorem sections_change_only_on_validation events (v : View.View) :
  Forall (fun e => ~ announces_models e) events ->
  let v' := View.run events v in
  View.chatSection_display v' = View.chatSection_display v
  /\ View.apiKeySection_display v' = View.apiKeySection_display v
  /\ View.modelSelect_options v' = View.modelSelect_options v.
Proof.
  intros Hevents. revert v.
  induction Hevents as [|e rest He _ IH]; intros v; [done |].
  cbn [View.run]. destruct (IH (View.step e v)) as (-> & -> & ->).
  by apply step_keeps_sections.
Qed.

Lemma step_sent_checked e v :
  exists new,
    View.sent (View.step e v) = View.sent v ++ new
    /\ Forall is_checked_message new.
Proof.
  assert (exists new : list JSValue,
            View.sent v = View.sent v ++ new
            /\ Forall is_checked_message new) as Hnone
    by (exists []; by rewrite app_nil_r).
  assert (forall u, exists new : list JSValue,
            View.sent (View.sendPrompt u) = View.sent u ++ new
            /\ Forall is_checked_message new) as Hsend.
  { intros u. unfold View.sendPrompt. cbn [truthy].
    destruct (trim (View.promptInput_value u)) as [|c r] eqn:Htrim;
      cbn [negb].
    - exists []. by rewrite app_nil_r.
    - eexists [_]. split; [done |]. constructor; [|constructor].
      right. eexists. split; [done |]. rewrite <- Htrim.
      apply trim_trimmed. by rewrite Htrim. }
  destruct e; cbn [View.step]; try done.
  - unfold View.apiKey_input. destruct (_ && _) eqn:Hgate; cbn; [|done].
    eexists [_]. split; [done |]. constructor; [|constructor].
    left. eexists. split; [done |]. by apply key_gate_spec.
  - unfold View.promptInput_keypress. by destruct (jsstring_eqb _ _).
  - unfold View.window_message.
    destruct (get_field message (js "command")) as [command|]; [|done].
    destruct (is_literal command "apiKeyValidated").
    { by destruct (get_field message (js "models")) as [[]|]. }
    destruct (is_literal command "chatResponse"); [done |].
    by destruct (is_literal command "error").
Qed.

(** X17: the webview only ever sends checked input to the host: every
    [validateApiKey] message carries a key of exactly 30 lowercase letters
    and digits, and every [sendChat] message carries a prompt that is not
    empty and has no white space at either end. *)
Theorem webview_sends_checked_input events (v : View.View) :
  exists new,
    View.sent (View.run events v) = View.sent v ++ new
    /\ Forall is_checked_message new.
Proof.
  revert v. induction events as [|e rest IH]; intros v; cbn [View.run].
  - exists []. by rewrite app_nil_r.
  - destruct (step_sent_checked e v) as (n1 & H1 & F1).
    destruct (IH (View.step e v)) as (n2 & H2 & F2).
    exists (n1 ++ n2). split; [by rewrite H2, H1, app_assoc |].
    by apply Forall_app.
Qed.

Lemma js_Enter : jsstring_eqb (js "Enter") (js "Enter") = true.
Proof. by vm_compute. Qed.

(** X18: a prompt of white space only, or no prompt at all, is not sent:
    the Send button and the Enter key leave the page exactly as it was. *)
Theorem blank_prompt_not_sent (v : View.View) :
  blank (View.promptInput_value v) ->
  View.step View.SendClicked v = v
  /\ View.step (View.KeyPressed (js "Enter")) v = v.
Proof.
  intros Hblank. cbn [View.step]. unfold View.promptInput_keypress.
  rewrite js_Enter. unfold View.sendPrompt.
  by rewrite (trim_blank _ Hblank).
Qed.

Lemma sendPrompt_nonblank (v : View.View) :
  ~ blank (View.promptInput_value v) ->
  let prompt := trim (View.promptInput_value v) in
  let v' := View.sendPrompt v in
  View.sent v' = View.sent v ++ [View.sendChat_message prompt]
  /\ View.chatDisplay v'
     = View.chatDisplay v
       ++ [View.MessageDiv (js "message user-message") (js "You: ")
             (JString prompt)]
  /\ View.promptInput_value v' = []
  /\ trimmed prompt.
Proof.
  intros Hblank prompt v'. subst v'. unfold View.sendPrompt. fold prompt.
  assert (prompt <> []) as Hne.
  { intros Hnil. apply Hblank. by apply trim_nil_blank. }
  assert (trimmed prompt) as Htrimmed by (by apply trim_trimmed).
  destruct prompt as [|c r]; [done |]. cbn. done.
Qed.

(** X19: any other prompt is sent trimmed, by the Send button and by the
    Enter key alike: one [sendChat] message goes to the host, the prompt
    shows up in the chat display as the user's message, and the input box
    is emptied. *)
Theorem prompt_is_sent_trimmed (v : View.View) :
  ~ blank (View.promptInput_value v) ->
  let prompt := trim (View.promptInput_value v) in
  let v' := View.step View.SendClicked v in
  View.step (View.KeyPressed (js "Enter")) v = v'
  /\ View.sent v'
     = View.sent v
       ++ [JObject [(js "command", JString (js "sendChat"));
                    (js "prompt", JString prompt)]]
  /\ View.chatDisplay v'
     = View.chatDisplay v
       ++ [View.MessageDiv (js "message user-message") (js "You: ")
             (JString prompt)]
  /\ View.promptInput_value v' = []
  /\ trimmed prompt.
Proof.
  intros Hblank prompt v'. subst v'. cbn [View.step].
  unfold View.promptInput_keypress. rewrite js_Enter.
  split; [done |]. exact (sendPrompt_nonblank v Hblank).
Qed.

(** X20: white space around a key does not matter: a well-formed key
    pasted with blanks, tabs or line ends before or after it is accepted,
    and the key that goes to the host is the bare key. *)
Theorem padded_key_accepted pre key post (v : View.View) :
  blank pre -> blank post -> well_formed_key key ->
  let v' := View.apiKey_input (pre ++ key ++ post) v in
  View.sent v'
  = View.sent v
    ++ [JObject [(js "command", JString (js "validateApiKey"));
                 (js "apiKey", JString key)]]
  /\ View.apiKeyStatus_textContent v' = js "Validating API key..."
  /\ View.apiKeyStatus_className v' = [].
Proof.
  intros Hpre Hpost Hkey. unfold View.apiKey_input.
  rewrite (trim_app_blank pre key post Hpre Hpost
             (well_formed_key_trimmed key Hkey)).
  by rewrite (proj2 (key_gate_spec key) Hkey).
Qed.

(** ** The host and the webview agree on their messages *)

Lemma window_message_apiKeyValidated models (v : View.View) :
  let v' := View.window_message (apiKeyValidated_message models) v in
  View.apiKeySection_display v' = js "none"
  /\ View.chatSection_display v' = js "block"
  /\ View.chatDisplay v' = View.chatDisplay v.
Proof. by vm_compute. Qed.




(** X22: a message from the host never makes the webview post anything
    back, and never touches what the user typed or the status line of the
    key. *)
Theorem host_message_no_reply message (v : View.View) :
  let v' := View.window_message message v in
  View.sent v' = View.sent v
  /\ View.promptInput_value v' = View.promptInput_value v
  /\ View.apiKeyStatus_textContent v' = View.apiKeyStatus_textContent v
  /\ View.apiKeyStatus_className v' = View.apiKeyStatus_className v.
Proof.
  unfold View.window_message.
  destruct (get_field message (js "command")) as [command|]; [|done].
  destruct (is_literal command "apiKeyValidated").
  { by destruct (get_field message (js "models")) as [[]|]. }
  destruct (is_literal command "chatResponse"); [done |].
  by destruct (is_literal command "error").
Qed.

(** ** From the page to the service and back *)

(** X23: entering a key, end to end.  When the user's input trims to a
    well-formed key, the service answers 200 with an array of readable
    models and the settings take the write, then the one message the
    webview posts makes the host call the settings' [update] with that key
    and post one reply, and that reply makes the webview hide the key
    section and show the chat section. *)
Theorem key_entry_end_to_end
    env value (v : View.View) (p : Panel) (w : World) resp elems :
  well_formed_key (trim value) ->
  currentPanel w = Some p ->
  network env (requests w ++ [models_request (JString (trim value))])
  = Responds resp ->
  status resp = 200%Z ->
  data resp = JArray elems ->
  Forall readable elems ->
  settings_accept env (js "qbraidChat.apiKey") (JString (trim value)) = true ->
  exists message reply,
    View.sent (View.apiKey_input value v) = View.sent v ++ [message]
    /\ posted (exec (onDidReceiveMessage env message) w)
       = posted w ++ [(p, reply)]
    /\ configWrites (exec (onDidReceiveMessage env message) w)
       = configWrites w ++ [(js "qbraidChat.apiKey", JString (trim value))]
    /\ let v' := View.window_message reply (View.apiKey_input value v) in
       View.apiKeySection_display v' = js "none"
       /\ View.chatSection_display v' = js "block".
Proof.
  intros Hkey Hcur Hnet Hst Hdata Hall Haccept.
  exists (View.validateApiKey_message (trim value)),
         (apiKeyValidated_message (List.map model_field elems)).
  split.
  { unfold View.apiKey_input.
    by rewrite (proj2 (key_gate_spec (trim value)) Hkey). }
  unfold exec. rewrite (onDidReceiveMessage_validateApiKey _ _ _ _ Hcur).
  pose proof (handleApiKeyValidation_accepted env _ p w resp elems
                Hnet Hst Hdata Hall) as [Hwrites Hrest].
  change apiKey_setting with (js "qbraidChat.apiKey") in *.
  rewrite Haccept in Hrest. destruct Hrest as [Hposted _].
  unfold exec in *. split; [exact Hposted |]. split; [exact Hwrites |].
  destruct (window_message_apiKeyValidated (List.map model_field elems)
              (View.apiKey_input value v)) as (H1 & H2 & _).
  done.
Qed.


(** ** Further concrete runs *)

Lemma readable_two_models : Forall readable two_models.
Proof. repeat constructor; discriminate. Defined.

Lemma well_formed_key30 : well_formed_key key30.
Proof. apply key_gate_spec. vm_compute. reflexivity. Defined.

Lemma accepted_key_is_written_witness :
  let env := service 200 (JArray two_models) in
  let w := panel_without_key env in
  let w' :=
    exec (onDidReceiveMessage env (View.validateApiKey_message key30)) w in
  posted w'
  = posted w ++ [(0%nat, apiKeyValidated_message
                           (List.map model_field two_models))]
  /\ requests w' = requests w ++ [models_request (JString key30)]
  /\ configWrites w'
     = configWrites w ++ [(js "qbraidChat.apiKey", JString key30)].
Proof.
  apply (accepted_key_is_written (service 200 (JArray two_models)) key30 0%nat
           _ (mkResponse 200 (JArray two_models)) two_models);
    try reflexivity.
  apply readable_two_models.
Defined.

Lemma validation_ignores_other_2xx_witness :
  let env := service 204 (JString []) in
  let w := panel_without_key env in
  let w' :=
    exec (onDidReceiveMessage env (View.validateApiKey_message key30)) w in
  posted w' = posted w /\ config w' = config w
  /\ configWrites w' = configWrites w.
Proof.
  apply (validation_ignores_other_2xx (service 204 (JString [])) key30 0%nat
           _ (mkResponse 204 (JString [])));
    [reflexivity | reflexivity | cbn; lia].
Defined.

Lemma validation_rejects_malformed_body_witness :
  let env := service 200 (JArray [JNull]) in
  let w := panel_without_key env in
  let w' :=
    exec (onDidReceiveMessage env (View.validateApiKey_message key30)) w in
  posted w'
  = posted w
    ++ [(0%nat, error_message (JString (js "Failed to validate API key")))]
  /\ config w' = config w
  /\ configWrites w' = configWrites w.
Proof.
  apply (validation_rejects_malformed_body (service 200 (JArray [JNull]))
           key30 0%nat _ (mkResponse 200 (JArray [JNull])));
    [reflexivity | reflexivity | reflexivity |].
  right. exists [JNull]. split; [reflexivity |]. constructor. by left.
Defined.

Lemma refused_write_is_reported_witness :
  let env := read_only_store 200 (JArray two_models) in
  let w := panel_without_key env in
  let w' :=
    exec (onDidReceiveMessage env (View.validateApiKey_message key30)) w in
  posted w'
  = posted w
    ++ [(0%nat, apiKeyValidated_message (List.map model_field two_models));
        (0%nat, error_message (JString (js "Failed to validate API key")))]
  /\ config w' = config w.
Proof.
  apply (refused_write_is_reported (read_only_store 200 (JArray two_models))
           key30 0%nat _ (mkResponse 200 (JArray two_models)) two_models);
    try reflexivity.
  apply readable_two_models.
Defined.

Lemma chat_failure_is_reported_witness :
  let env := service 401 (JString (js "Unauthorized")) in
  let w := panel_with_key env in
  let w' :=
    exec (onDidReceiveMessage env (View.sendChat_message (js "hello"))) w in
  posted w'
  = posted w ++ [(0%nat, error_message (JString (js "Unauthorized")))]
  /\ requests w'
     = requests w ++ [chat_request (JString (js "hello")) (JString key30)]
  /\ config w' = config w
  /\ configWrites w' = configWrites w.
Proof.
  apply (chat_failure_is_reported (service 401 (JString (js "Unauthorized")))
           (js "hello") key30 0%nat _
           (AxiosError (Some (mkResponse 401 (JString (js "Unauthorized"))))));
    [reflexivity | vm_compute; reflexivity | discriminate | reflexivity].
Defined.

Lemma chat_ignores_other_2xx_witness :
  let env := service 202 hello_body in
  let w := panel_with_key env in
  let w' :=
    exec (onDidReceiveMessage env (View.sendChat_message (js "hello"))) w in
  posted w' = posted w.
Proof.
  apply (chat_ignores_other_2xx (service 202 hello_body) (js "hello") key30
           0%nat _ (mkResponse 202 hello_body));
    [reflexivity | vm_compute; reflexivity | discriminate | reflexivity
    | cbn; lia].
Defined.

Lemma unknown_command_ignored_witness :
  let w := panel_with_key service_down in
  exec (onDidReceiveMessage service_down
          (JObject [(js "command", JString (js "ping"))])) w
  = w.
Proof.
  apply (unknown_command_ignored service_down).
  intros s H. vm_compute in H. injection H as <-. split; discriminate.
Defined.

Lemma idle_without_panel_witness :
  let env := service 200 hello_body in
  let w := run env [OpenChat; Deactivate] (start ∅) in
  run env [WebviewMessage 0%nat (View.sendChat_message (js "hello"));
           PanelClosed 0%nat; Deactivate] w
  = w.
Proof.
  apply (idle_without_panel (service 200 hello_body) ∅ [OpenChat; Deactivate]).
  - reflexivity.
  - repeat constructor; discriminate.
Defined.

Lemma panel_events_keep_logs_witness :
  let w := panel_with_key service_down in
  let w' := run service_down [PanelClosed 0%nat; OpenChat; OpenChat] w in
  config w' = config w /\ configWrites w' = configWrites w
  /\ posted w' = posted w /\ requests w' = requests w.
Proof.
  apply (panel_events_keep_logs service_down
           [PanelClosed 0%nat; OpenChat; OpenChat]).
  repeat constructor.
Defined.

Lemma sections_change_only_on_validation_witness :
  let events :=
    [View.ApiKeyInput key30; View.PromptTyped (js "hello");
     View.SendClicked; View.HostMessage (error_message key_not_found)] in
  let v' := View.run events View.loaded in
  View.chatSection_display v' = View.chatSection_display View.loaded
  /\ View.apiKeySection_display v' = View.apiKeySection_display View.loaded
  /\ View.modelSelect_options v' = View.modelSelect_options View.loaded.
Proof.
  apply (sections_change_only_on_validation
           [View.ApiKeyInput key30; View.PromptTyped (js "hello");
            View.SendClicked;
            View.HostMessage (error_message key_not_found)]
           View.loaded).
  repeat constructor; intros (message & Heq & Hcommand);
    try discriminate Heq.
  injection Heq as <-. vm_compute in Hcommand. discriminate Hcommand.
Defined.

Lemma blank_prompt_not_sent_witness :
  let v := page_with_prompt "   " in
  View.step View.SendClicked v = v
  /\ View.step (View.KeyPressed (js "Enter")) v = v.
Proof.
  apply (blank_prompt_not_sent (page_with_prompt "   ")).
  repeat constructor.
Defined.

Lemma not_blank_hello : ~ blank (View.promptInput_value (page_with_prompt " hello ")).
Proof. intros H%trim_blank. vm_compute in H. discriminate H. Defined.

Lemma prompt_is_sent_trimmed_witness :
  let v := page_with_prompt " hello " in
  let v' := View.step View.SendClicked v in
  View.step (View.KeyPressed (js "Enter")) v = v'
  /\ View.sent v'
     = View.sent v
       ++ [JObject [(js "command", JString (js "sendChat"));
                    (js "prompt", JString (trim (View.promptInput_value v)))]]
  /\ View.chatDisplay v'
     = View.chatDisplay v
       ++ [View.MessageDiv (js "message user-message") (js "You: ")
             (JString (trim (View.promptInput_value v)))]
  /\ View.promptInput_value v' = []
  /\ trimmed (trim (View.promptInput_value v)).
Proof.
  apply (prompt_is_sent_trimmed (page_with_prompt " hello ")).
  apply not_blank_hello.
Defined.

Lemma padded_key_accepted_witness :
  let v' := View.apiKey_input (js "  " ++ key30 ++ [0x0A]) View.loaded in
  View.sent v'
  = View.sent View.loaded
    ++ [JObject [(js "command", JString (js "validateApiKey"));
                 (js "apiKey", JString key30)]]
  /\ View.apiKeyStatus_textContent v' = js "Validating API key..."
  /\ View.apiKeyStatus_className v' = [].
Proof.
  apply (padded_key_accepted (js "  ") key30 [0x0A] View.loaded).
  - repeat constructor.
  - repeat constructor.
  - apply well_formed_key30.
Defined.

Lemma key_entry_end_to_end_witness :
  let env := service 200 (JArray two_models) in
  let w := panel_without_key env in
  exists message reply,
    View.sent (View.apiKey_input key30 View.loaded)
    = View.sent View.loaded ++ [message]
    /\ posted (exec (onDidReceiveMessage env message) w)
       = posted w ++ [(0%nat, reply)]
    /\ configWrites (exec (onDidReceiveMessage env message) w)
       = configWrites w ++ [(js "qbraidChat.apiKey", JString (trim key30))]
    /\ let v' :=
         View.window_message reply (View.apiKey_input key30 View.loaded) in
       View.apiKeySection_display v' = js "none"
       /\ View.chatSection_display v' = js "block".
Proof.
  apply (key_entry_end_to_end (service 200 (JArray two_models)) key30
           View.loaded 0%nat _ (mkResponse 200 (JArray two_models))
           two_models);
    try reflexivity.
  - apply well_formed_key30.
  - apply readable_two_models.
Defined.

